(** * Table normalisation and numeric canonicalisation of the PDF extractor

    A shallow embedding of the table pipeline of the repository
    (script.py, standard_schema_extractor.py, page8_extractor.py,
    pymupdf_extractor.py and extract_page8_changes_equity.py) together
    with the properties its specification states about it and further
    properties of the code.

    Conventions of the embedding.
    - A Python [str] is a list of Unicode code points ([text]); [txt]
      turns a literal into such a list, one code point per character.
    - A Python [float] is an IEEE 754 binary64 value, given by the
      [spec_float] of the standard library at precision 53 and maximal
      exponent 1024.
    - Values of several Python types are injected into [pyval].
    - An exception is the left summand of [result]; [try ... except]
      is a case analysis on it.
    - Case mapping is the ASCII fragment of the Unicode one ([str.lower]
      on the letters A-Z); the white space set of [str.strip] is the
      complete one, and [float] takes the decimal digits of Unicode 14.0,
      the version of Python 3.11. *)

From Stdlib Require Import ZArith NArith List Bool Lia String Ascii.
From Stdlib Require Import SpecFloat.
From Equations Require Import Equations.
From stdpp Require Import gmap strings list fin_maps pretty.

Set Warnings "-register-all,-clear-no-such-hyp".

Local Open Scope N_scope.

(** ** Text *)

Abbreviation text := (list N).

Definition txt (s : string) : text :=
  map N_of_ascii (list_ascii_of_string s).

(** The code points for which [str.isspace] holds. *)
Definition is_space (c : N) : bool :=
  ((9 <=? c) && (c <=? 13)) || ((28 <=? c) && (c <=? 32))
  || (c =? 133) || (c =? 160) || (c =? 5760)
  || ((8192 <=? c) && (c <=? 8202))
  || (c =? 8232) || (c =? 8233) || (c =? 8239) || (c =? 8287)
  || (c =? 12288).

Fixpoint lstrip (t : text) : text :=
  match t with
  | c :: t' => if is_space c then lstrip t' else t
  | [] => []
  end.

Definition rstrip (t : text) : text := rev (lstrip (rev t)).

(** [s.strip()] *)
Definition strip (t : text) : text := rstrip (lstrip t).

Definition lower_char (c : N) : N :=
  if (65 <=? c) && (c <=? 90) then c + 32 else c.

(** [s.lower()] *)
Definition lower (t : text) : text := map lower_char t.

(** [s.replace(c, '')] for a one-character [c]. *)
Definition replace_del (c : N) (t : text) : text :=
  filter (λ x, x ≠ c) t.

(** [s.replace(c, d)] for one-character [c] and [d]. *)
Definition replace_char (c d : N) (t : text) : text :=
  map (λ x, if bool_decide (x = c) then d else x) t.

(** [s.startswith(c)] and [s.endswith(c)] for a one-character [c]. *)
Definition startswith (c : N) (t : text) : bool :=
  match t with
  | x :: _ => bool_decide (x = c)
  | [] => false
  end.

Definition endswith (c : N) (t : text) : bool := startswith c (rev t).

(** [s[1:-1]] *)
Definition slice_1_m1 (t : text) : text :=
  take (length t - 2)%nat (drop 1 t).

(** [needle in hay] on strings. *)
Fixpoint is_prefix (needle hay : text) : bool :=
  match needle, hay with
  | [], _ => true
  | _ :: _, [] => false
  | a :: n', b :: h' => bool_decide (a = b) && is_prefix n' h'
  end.

Fixpoint contains (needle hay : text) : bool :=
  is_prefix needle hay ||
  match hay with
  | [] => false
  | _ :: h' => contains needle h'
  end.

(** Code points used by the source. *)
Definition c_lparen : N := 40.
Definition c_rparen : N := 41.
Definition c_comma : N := 44.
Definition c_space : N := 32.
Definition c_nbsp : N := 160.
Definition c_newline : N := 10.
Definition c_return : N := 13.
Definition c_endash : N := 8211.

(** ** Exceptions *)

Inductive exn := ValueError | TypeError | AttributeError | IndexError.

Definition result (A : Type) : Type := exn + A.

Definition raise {A} (e : exn) : result A := inl e.

#[global] Instance result_ret : MRet result := λ A a, inr a.

#[global] Instance result_bind : MBind result := λ A B k m,
  match m with
  | inl e => inl e
  | inr a => k a
  end.

(** [try: body except: handler] with a bare [except]. *)
Definition try_except {A} (body : result A) (handler : A) : A :=
  match body with
  | inr a => a
  | inl _ => handler
  end.

(** ** Floats *)

Abbreviation float := spec_float.

Definition prec : Z := 53.
Definition emax : Z := 1024.

Definition float_of_Z (z : Z) : float := binary_normalize prec emax z 0 false.

(** [-x] *)
Definition float_neg (x : float) : float := SFopp x.

(** [x * y] *)
Definition float_mul (x y : float) : float := SFmul prec emax x y.

(** The correctly rounded value of [(-1)^neg * m * 10^e]. *)
Definition float_of_decimal (neg : bool) (m : N) (e : Z) : float :=
  match m with
  | N0 => S754_zero neg
  | Npos p =>
      if (0 <=? e)%Z
      then binary_normalize prec emax
             (cond_Zopp neg (Zpos p * 10 ^ e)%Z) 0 neg
      else SFdiv prec emax (S754_finite neg p 0)
             (S754_finite false (Z.to_pos (10 ^ (- e))) 0)
  end.

Definition digit_of (c : N) : option N :=
  if (48 <=? c) && (c <=? 57) then Some (c - 48) else None.

Definition is_digit (c : N) : bool := (48 <=? c) && (c <=? 57).

(** The digit zero of each decimal system of Unicode outside ASCII; the
    nine code points after it are its digits one to nine. *)
Definition decimal_zeros : list N :=
  [1632; 1776; 1984; 2406; 2534; 2662; 2790; 2918; 3046; 3174; 3302; 3430;
   3558; 3664; 3792; 3872; 4160; 4240; 6112; 6160; 6470; 6608; 6784; 6800;
   6992; 7088; 7232; 7248; 42528; 43216; 43264; 43472; 43504; 43600; 44016;
   65296; 66720; 68912; 69734; 69872; 69942; 70096; 70384; 70736; 70864;
   71248; 71360; 71472; 71904; 72016; 72784; 73040; 73120; 92768; 92864;
   93008; 120782; 120792; 120802; 120812; 120822; 123200; 123632; 125264;
   130032].

(** The value of a decimal digit outside ASCII. *)
Definition decimal_value (c : N) : option N :=
  (λ zero, c - zero) <$> List.find (λ zero, (zero <=? c) && (c <? zero + 10)) decimal_zeros.

(** What [float] makes of a character before it parses: an ASCII
    character stands for itself, white space outside ASCII for a blank and
    a decimal digit for the ASCII digit of its value; no other character
    is taken. *)
Definition transform_char (c : N) : option N :=
  if c <? 127 then Some c
  else if is_space c then Some 32
  else (λ d, 48 + d) <$> decimal_value c.

Definition transform (s : text) : option text := mapM transform_char s.

(** The white space that [float] skips at the two ends of the ASCII
    text: that of C. *)
Definition is_ascii_space (c : N) : bool :=
  ((9 <=? c) && (c <=? 13)) || (c =? 32).

Fixpoint lstrip_ascii (t : text) : text :=
  match t with
  | c :: t' => if is_ascii_space c then lstrip_ascii t' else t
  | [] => []
  end.

Definition strip_ascii (t : text) : text := rev (lstrip_ascii (rev (lstrip_ascii t))).

(** Underscores in a numeric literal: each one stands between two digits,
    and is dropped. *)
Fixpoint strip_underscores (prev : N) (t : text) : option text :=
  match t with
  | [] => if bool_decide (prev = 95) then None else Some []
  | c :: t' =>
      if bool_decide (c = 95)
      then if is_digit prev then strip_underscores c t' else None
      else if bool_decide (prev = 95) && negb (is_digit c) then None
           else cons c <$> strip_underscores c t'
  end.

(** A maximal run of digits: its value on top of [acc], the number of
    digits read on top of [n], and the rest of the input. *)
Fixpoint read_digits (acc : N) (n : nat) (t : text) : N * nat * text :=
  match t with
  | c :: t' =>
      match digit_of c with
      | Some d => read_digits (10 * acc + d) (S n) t'
      | None => (acc, n, t)
      end
  | [] => (acc, n, t)
  end.

Definition read_sign (t : text) : bool * text :=
  match t with
  | 43 :: t' => (false, t')
  | 45 :: t' => (true, t')
  | _ => (false, t)
  end.

(** The exponent part, [e] or [E], an optional sign and at least one
    digit, up to the end of the input. *)
Definition read_exponent (t : text) : option Z :=
  match t with
  | [] => Some 0%Z
  | c :: t' =>
      if bool_decide (c = 101) || bool_decide (c = 69) then
        let '(neg, t'') := read_sign t' in
        match read_digits 0 0 t'' with
        | (_, O, _) => None
        | (x, S _, []) => Some (cond_Zopp neg (Z.of_N x))
        | (_, S _, _ :: _) => None
        end
      else None
  end.

(** An unsigned decimal literal: digits with an optional point and at
    least one digit, then an optional exponent. *)
Definition read_decimal (t : text) : option (N * Z) :=
  let '(ip, ni, r1) := read_digits 0 0 t in
  let '(m, nf, r2) :=
    match r1 with
    | 46 :: r => read_digits ip 0 r
    | _ => (ip, O, r1)
    end in
  if bool_decide ((ni + nf)%nat = O) then None
  else x ← read_exponent r2; Some (m, (x - Z.of_nat nf)%Z).

(** [float(s)] on a string: the characters are brought to ASCII, the
    underscores between digits are dropped, the white space at the two
    ends is skipped, and what is left is a sign and inf, infinity, nan or
    a decimal literal. *)
Definition py_float (s : text) : result float :=
  match transform s ≫= strip_underscores 0 with
  | None => raise ValueError
  | Some s' =>
      let '(neg, body) := read_sign (strip_ascii s') in
      let low := lower body in
      if bool_decide (low = txt "inf") || bool_decide (low = txt "infinity")
      then mret (S754_infinity neg)
      else if bool_decide (low = txt "nan") then mret S754_nan
      else match read_decimal body with
           | Some (m, e) => mret (float_of_decimal neg m e)
           | None => raise ValueError
           end
  end.

(** ** Python values *)

Inductive pyval :=
| VNone
| VInt (z : Z)
| VFloat (f : float)
| VStr (t : text)
| VSeries (cells : list pyval).

(** A table cell as the table source hands it over: text, or [None]. *)
Abbreviation cell := (option text).

Definition of_cell (c : cell) : pyval :=
  match c with
  | Some t => VStr t
  | None => VNone
  end.

(** Truth value of a cell: a non-empty string. *)
Definition cell_truthy (c : cell) : bool :=
  match c with
  | Some (_ :: _) => true
  | _ => false
  end.

(** [a + b] for a string [a]: concatenation, with strings only. *)
Definition str_add (a : text) (b : pyval) : result text :=
  match b with
  | VStr t => mret (a ++ t)
  | _ => raise TypeError
  end.

(** [l[i]], with the negative indices of Python. *)
Definition py_index {A} (l : list A) (i : Z) : result A :=
  let j := if (i <? 0)%Z then (Z.of_nat (length l) + i)%Z else i in
  if (j <? 0)%Z then raise IndexError
  else match l !! Z.to_nat j with
       | Some x => mret x
       | None => raise IndexError
       end.

(** [enumerate(l, start)] *)
Definition enumerate {A} (start : nat) (l : list A) : list (nat * A) :=
  zip (seq start (length l)) l.

(** [for x in xs: body], the body updating a state or raising. *)
Fixpoint for_in {A S} (xs : list A) (body : S → A → result S) (s : S) : result S :=
  match xs with
  | [] => mret s
  | x :: xs' => s' ← body s x; for_in xs' body s'
  end.

(** [f"{n}"] and [f"{n:03d}"] for a natural number. *)
Definition fmt (n : nat) : string := pretty n.

Definition fmt_03d (n : nat) : string :=
  let s := pretty n in
  String.concat "" (replicate (3 - String.length s) "0") +:+ s.

(** [str(v)]. For a float or a series it is the formatting of the run
    time, not of the repository: [repr_obj]. *)
Definition py_str (repr_obj : pyval → text) (v : pyval) : text :=
  match v with
  | VStr t => t
  | VNone => txt "None"
  | VInt z => txt (pretty z)
  | _ => repr_obj v
  end.

(** A dictionary with string keys. *)
Abbreviation dict := (gmap string pyval).

(** ** The raw table in memory

    The table source returns a list of rows, each row a Python list
    object. The rows live in a heap of list objects, a table is the list
    of the addresses of its rows, and [row.append(x)] writes the heap. *)

Abbreviation heap := (gmap nat (list cell)).
Abbreviation table := (list nat).

Definition row_at (h : heap) (row : nat) : list cell := default [] (h !! row).

(** [row.append(x)] *)
Definition append (row : nat) (x : cell) (h : heap) : heap :=
  <[row := row_at h row ++ [x]]> h.

(** What the caller sees of a table after the call. *)
Definition contents (h : heap) (t : table) : list (list cell) := map (row_at h) t.

(** ** Data frames

    A frame is its column labels and its rows of values; the index is
    not modelled. In a frame of cells, strings or nothing, the missing
    value is [None]; in a frame of values a column of floats holds NaN
    for it. *)

Record DataFrame (A : Type) := mkDataFrame {
  columns : list cell;
  values : list (list A)
}.
Arguments mkDataFrame {A}.
Arguments columns {A}.
Arguments values {A}.

(** [df.empty] *)
Definition empty {A} (df : DataFrame A) : bool :=
  bool_decide (values df = []) || bool_decide (columns df = []).

Definition notna (c : cell) : bool :=
  match c with
  | Some _ => true
  | None => false
  end.

(** [df.dropna(how='all')]: the rows with a value that is not missing. *)
Definition dropna_rows (df : DataFrame cell) : DataFrame cell :=
  mkDataFrame (columns df) (List.filter (existsb notna) (values df)).

(** The entries of [l] at the positions where [mask] holds. *)
Fixpoint select {A} (mask : list bool) (l : list A) : list A :=
  match mask, l with
  | b :: mask', x :: l' => if b then x :: select mask' l' else select mask' l'
  | _, _ => []
  end.

(** Column [j] has a value that is not missing. *)
Definition column_notna (rows : list (list cell)) (j : nat) : bool :=
  existsb (λ r, notna (default None (r !! j))) rows.

(** [df.dropna(axis=1, how='all')]: the columns with a value that is not
    missing. *)
Definition dropna_columns (df : DataFrame cell) : DataFrame cell :=
  let mask := map (column_notna (values df)) (seq 0 (length (columns df))) in
  mkDataFrame (select mask (columns df)) (map (select mask) (values df)).

(** [df.map(f)] *)
Definition frame_map {A B} (f : A → B) (df : DataFrame A) : DataFrame B :=
  mkDataFrame (columns df) (map (map f) (values df)).

(** [df.replace('', None)] on one value. *)
Definition replace_empty (c : cell) : cell :=
  match c with
  | Some [] => None
  | _ => c
  end.

(** ** script.py

    [_convert_table_to_dataframe], [_clean_dataframe],
    [convert_numeric_columns] and [transform_to_standard_schema] are the
    same in standard_schema_extractor.py, up to the unrolling of two
    loops; [_convert_to_numeric] differs and has a module of its own
    below. *)

Module Script.

(** [while len(row) < max_cols: row.append("")] *)
Equations? pad (max_cols : nat) (row : nat) (h : heap) : heap
  by wf (max_cols - length (row_at h row))%nat lt :=
  pad max_cols row h with decide (length (row_at h row) < max_cols)%nat => {
    | left _ := pad max_cols row (append row (Some []) h);
    | right _ := h }.
Proof.
  unfold append, row_at at 1. rewrite lookup_insert_eq. simpl.
  rewrite length_app. simpl. lia.
Qed.

(** The loop over [data_rows], lines 152-155 of script.py: the padded
    rows and the heap it leaves. *)
Fixpoint pad_rows (max_cols : nat) (data_rows : list nat) (h : heap)
  : list (list cell) * heap :=
  match data_rows with
  | [] => ([], h)
  | row :: rest =>
      let h1 := pad max_cols row h in
      let padded := take max_cols (row_at h1 row) in
      let '(padded_rows, h2) := pad_rows max_cols rest h1 in
      (padded :: padded_rows, h2)
  end.

(** [_clean_dataframe] *)
Definition clean_dataframe (df : DataFrame cell) : DataFrame cell :=
  let df := dropna_rows df in
  let df := dropna_columns df in
  let df := frame_map (fmap strip) df in
  frame_map replace_empty df.

(** The rows that pass [any(cell for cell in row)]. *)
Definition nonempty_rows (h : heap) (rows : list nat) : list nat :=
  List.filter (λ row, existsb cell_truthy (row_at h row)) rows.

(** [_convert_table_to_dataframe], lines 139-155: the header row and the
    padded rows, or [None], and the heap after the loop. *)
Definition rectangularise (t : table) (h : heap)
  : option (nat * list (list cell)) * heap :=
  match t with
  | [] | [_] => (None, h)
  | headers :: data_rows =>
      let data_rows := nonempty_rows h data_rows in
      if bool_decide (data_rows = []) then (None, h)
      else
        let max_cols := length (row_at h headers) in
        let '(padded_rows, h') := pad_rows max_cols data_rows h in
        (Some (headers, padded_rows), h')
  end.

(** [_convert_table_to_dataframe]: the frame, or [None], and the heap
    after the call. None of the steps raises, so the handler of the
    [try] is not reached. *)
Definition convert_table_to_dataframe (t : table) (h : heap)
  : option (DataFrame cell) * heap :=
  let '(r, h') := rectangularise t h in
  match r with
  | None => (None, h')
  | Some (headers, padded_rows) =>
      let df := mkDataFrame (row_at h' headers) padded_rows in
      (Some (clean_dataframe df), h')
  end.

(** [_convert_to_numeric], lines 212-260. The guards on [None], on
    numbers and on [pandas.Series] come first; only a string reaches
    [str(value).strip()]. *)
Definition convert_to_numeric (value : pyval) : pyval :=
  match value with
  | VNone => VNone
  | VInt _ | VFloat _ => value
  | VSeries _ => value
  | VStr s =>
      let value_str := strip s in
      if bool_decide (value_str = []) || bool_decide (lower value_str = txt "nan")
      then VNone
      else if bool_decide (value_str = txt "-") || bool_decide (value_str = [c_endash])
      then VNone
      else if startswith c_lparen value_str && endswith c_rparen value_str
      then
        try_except
          (let inner := slice_1_m1 value_str in
           let inner := replace_del c_nbsp (replace_del c_space (replace_del c_comma inner)) in
           num ← py_float inner;
           mret (VFloat (float_neg num)))
          (VStr value_str)
      else
        try_except
          (let clean_value :=
             replace_del c_nbsp (replace_del c_space (replace_del c_comma value_str)) in
           num ← py_float clean_value;
           _ ← str_add (txt "fixed values are ") (VFloat num);
           mret (VFloat num))
          (VStr value_str)
  end.

(** The values of column [j], row by row. *)
Definition column_values (j : nat) (rows : list (list pyval)) : list pyval :=
  omap (λ row : list pyval, row !! j) rows.

(** What pandas stores for the values that [Series.apply] has collected.
    A string, a Series or an int beyond 64 bits makes the column one of
    objects, stored as they are. Otherwise, with a float among them, or
    with a missing value and an int, the column is one of floats: a
    missing value is stored as NaN and an int as the float of its value.
    The frames of this repository hold no int. *)
Definition numeric_or_missing (v : pyval) : bool :=
  match v with
  | VNone | VFloat _ => true
  | VInt z => (- 2 ^ 63 <=? z)%Z && (z <? 2 ^ 63)%Z
  | VStr _ | VSeries _ => false
  end.

Definition is_float (v : pyval) : bool :=
  match v with VFloat _ => true | _ => false end.

Definition is_int (v : pyval) : bool :=
  match v with VInt _ => true | _ => false end.

Definition is_none (v : pyval) : bool :=
  match v with VNone => true | _ => false end.

Definition float_column (result : list pyval) : bool :=
  forallb numeric_or_missing result
  && (existsb is_float result || (existsb is_none result && existsb is_int result)).

Definition as_float (v : pyval) : pyval :=
  match v with
  | VNone => VFloat S754_nan
  | VInt z => VFloat (float_of_Z z)
  | _ => v
  end.

(** The cell of column [j] that holds [x], after
    [df[col] = df[col].apply(lambda x: self._convert_to_numeric(x))] for
    the label of the column. *)
Definition convert_cell (rows : list (list pyval)) (j : nat) (x : pyval) : pyval :=
  let result := map convert_to_numeric (column_values j rows) in
  if float_column result then as_float (convert_to_numeric x)
  else convert_to_numeric x.

(** [df[col] = df[col].apply(lambda x: self._convert_to_numeric(x))].
    Under a label that occurs once, [df[col]] is a column, the lambda
    gets its values one by one and pandas stores what it returned. Under
    a repeated label it is a frame, the lambda gets each of its columns
    as a [pandas.Series] and returns it as it is. *)
Definition convert_column (col : cell) (df : DataFrame pyval) : DataFrame pyval :=
  if bool_decide (length (List.filter (λ c, bool_decide (c = col)) (columns df)) = 1%nat)
  then
    mkDataFrame (columns df)
      (map (λ row, imap (λ j x, if bool_decide (columns df !! j = Some col)
                                then convert_cell (values df) j x else x) row)
           (values df))
  else df.

(** [convert_numeric_columns], on one frame and on all of them. *)
Definition convert_numeric_frame (df : DataFrame pyval) : DataFrame pyval :=
  foldl (λ df col, convert_column col df) df (columns df).

Definition convert_numeric_columns (extracted_tables : list (DataFrame pyval))
  : list (DataFrame pyval) :=
  map convert_numeric_frame extracted_tables.

(** An entry of [table_metadata]. *)
Record metadata := mkMetadata {
  page : nat;
  table_index : nat;
  rows : nat;
  n_columns : nat
}.

(** The state of the extractor object. *)
Record extractor := mkExtractor {
  extracted_tables : list (DataFrame pyval);
  table_metadata : list metadata
}.

(** [extract_all_tables], lines 109-135: the body of the inner loop, the
    inner loop and the loop over the pages. [pages] is what
    [page.extract_tables()] returns for each page, in page order. *)
Definition extract_table (page_num : nat) (st : extractor * heap)
    (it : nat * table) : result (extractor * heap) :=
  let '(self, h) := st in
  let '(table_idx, t) := it in
  let '(df, h') := convert_table_to_dataframe t h in
  match df with
  | Some df =>
      if empty df then mret (self, h')
      else mret (mkExtractor
                   (extracted_tables self ++ [frame_map of_cell df])
                   (table_metadata self ++
                      [mkMetadata page_num table_idx (length (values df))
                         (length (columns df))]),
                 h')
  | None => mret (self, h')
  end.

Definition extract_page (st : extractor * heap) (it : nat * list table)
  : result (extractor * heap) :=
  let '(page_num, tables) := it in
  for_in (enumerate 0 tables) (extract_table page_num) st.

Definition extract_all_tables (pages : list (list table)) (h : heap)
  : result (extractor * heap) :=
  for_in (enumerate 1 pages) extract_page (mkExtractor [] [], h).

Definition standard_columns : list string :=
  ["primary_key"; "date_last_updated"; "published_date"; "reported_date";
   "doc_page_num"; "file_page_num"; "table_id"; "country"; "geo_1_id";
   "geo_1_name"; "geo_1_type"; "geo_2_id"; "geo_2_name"; "geo_2_type";
   "dim_4_id"; "dim_4_name"; "dim_3_id"; "dim_3_name"; "dim_2_id";
   "dim_2_name"; "dim_1_id"; "dim_1_name"; "metric_id"; "metric_name";
   "source_metric_id"; "source_metric_name"; "indentation"; "process_flag";
   "base_factor"; "display_power_factor"; "data_frequency"; "aggregation_method";
   "unit"; "unit_type"; "note_id"; "note_reference"; "cumulative_periods";
   "comments"; "check_sum"; "concat"; "formula"; "2022"; "2023"; "2024";
   "2022_check"; "2023_check"; "2024_check"]%string.

Section Mapper.

(** The date [datetime.now().strftime('%Y-%m-%d')] of the run. *)
Variable today : text.

(** [str(x)] for a float or a series. *)
Variable repr_obj : pyval → text.

Definition set_none (row_data : dict) (field : string) : result dict :=
  mret (<[field := VNone]> row_data).

(** The body of [for i in range(1, 5)], lines 289-294. *)
Definition set_dim (table_idx row_idx : nat) (extracted_cols : list pyval)
    (row_data : dict) (i : nat) : result dict :=
  if bool_decide (i ≤ length extracted_cols)%nat
  then
    let row_data :=
      <["dim_" +:+ fmt i +:+ "_id" :=
          VStr (txt ("DIM" +:+ fmt i +:+ "_" +:+ fmt table_idx +:+ "_" +:+ fmt row_idx))]>
        row_data in
    x ← py_index extracted_cols (Z.of_nat i - 1);
    mret (<["dim_" +:+ fmt i +:+ "_name" := VStr (py_str repr_obj x)]> row_data)
  else
    let row_data := <["dim_" +:+ fmt i +:+ "_id" := VNone]> row_data in
    mret (<["dim_" +:+ fmt i +:+ "_name" := VNone]> row_data).

(** The body of [for year in ['2022', '2023', '2024']], lines 314-315. *)
Definition clear_year (row_data : dict) (year : string) : result dict :=
  let row_data := <[year := VNone]> row_data in
  mret (<[year +:+ "_check" := VNone]> row_data).

(** [if len(extracted_cols) >= n: row_data[year] = extracted_cols[i]] *)
Definition set_year (n : nat) (year : string) (i : Z)
    (extracted_cols : list pyval) (row_data : dict) : result dict :=
  if bool_decide (n ≤ length extracted_cols)%nat
  then x ← py_index extracted_cols i; mret (<[year := x]> row_data)
  else mret row_data.

(** The body of the loop over the rows of a frame, lines 273-326: the
    dictionary of one row. *)
Definition row_record (primary_key_counter : Z) (table_idx row_idx : nat)
    (meta : metadata) (row : list pyval) : result dict :=
  let row_data : dict := ∅ in
  let row_data := <["primary_key" := VInt primary_key_counter]> row_data in
  let row_data := <["date_last_updated" := VStr today]> row_data in
  let row_data := <["published_date" := VStr today]> row_data in
  let row_data := <["reported_date" := VStr (txt "2024-12-31")]> row_data in
  let row_data := <["doc_page_num" := VInt (Z.of_nat (page meta))]> row_data in
  let row_data := <["file_page_num" := VInt (Z.of_nat (page meta))]> row_data in
  let row_data :=
    <["table_id" := VStr (txt ("TABLE_" +:+ fmt_03d (table_idx + 1)))]> row_data in
  let row_data := <["country" := VStr (txt "PL")]> row_data in
  row_data ←
    for_in ["geo_1_id"; "geo_1_name"; "geo_1_type";
            "geo_2_id"; "geo_2_name"; "geo_2_type"]%string set_none row_data;
  let extracted_cols := row in
  row_data ← for_in (seq 1 4) (set_dim table_idx row_idx extracted_cols) row_data;
  let row_data :=
    <["metric_id" := VStr (txt ("METRIC_" +:+ fmt table_idx +:+ "_" +:+ fmt row_idx))]>
      row_data in
  let row_data := <["metric_name" := VStr (txt ("Value_" +:+ fmt row_idx))]> row_data in
  let row_data :=
    <["source_metric_id" :=
        VStr (txt ("SOURCE_" +:+ fmt table_idx +:+ "_" +:+ fmt row_idx))]> row_data in
  let row_data := <["source_metric_name" := VStr (txt "PDF_Extracted")]> row_data in
  let row_data := <["indentation" := VInt 0]> row_data in
  let row_data := <["process_flag" := VInt 1]> row_data in
  let row_data := <["base_factor" := VInt 1]> row_data in
  let row_data := <["display_power_factor" := VInt 0]> row_data in
  let row_data := <["data_frequency" := VStr (txt "Annual")]> row_data in
  let row_data := <["aggregation_method" := VStr (txt "Sum")]> row_data in
  let row_data := <["unit" := VStr (txt "PLN")]> row_data in
  let row_data := <["unit_type" := VStr (txt "Thousands")]> row_data in
  let row_data := <["note_id" := VNone]> row_data in
  let row_data := <["note_reference" := VNone]> row_data in
  let row_data := <["cumulative_periods" := VInt 1]> row_data in
  let row_data :=
    <["comments" := VStr (txt ("Extracted from page " +:+ fmt (page meta)))]> row_data in
  row_data ← for_in ["2022"; "2023"; "2024"]%string clear_year row_data;
  row_data ← set_year 4 "2024" (-1) extracted_cols row_data;
  row_data ← set_year 5 "2023" (-2) extracted_cols row_data;
  row_data ← set_year 6 "2022" (-3) extracted_cols row_data;
  let row_data := <["check_sum" := VNone]> row_data in
  let row_data := <["concat" := VNone]> row_data in
  let row_data := <["formula" := VNone]> row_data in
  mret row_data.

(** The loops of [transform_to_standard_schema], lines 266-329, on the
    state [(transformed_data, primary_key_counter)]. *)
Definition transform_row (table_idx : nat) (meta : metadata)
    (st : list dict * Z) (it : nat * list pyval) : result (list dict * Z) :=
  let '(transformed_data, primary_key_counter) := st in
  let '(row_idx, row) := it in
  row_data ← row_record primary_key_counter table_idx row_idx meta row;
  mret (transformed_data ++ [row_data], (primary_key_counter + 1)%Z).

Definition transform_table (st : list dict * Z)
    (it : nat * (DataFrame pyval * metadata)) : result (list dict * Z) :=
  let '(table_idx, (df, meta)) := it in
  for_in (enumerate 0 (values df)) (transform_row table_idx meta) st.

Definition transformed_data (self : extractor) : result (list dict) :=
  st ← for_in (enumerate 0 (zip (extracted_tables self) (table_metadata self)))
         transform_table ([], 1%Z);
  mret st.1.

(** [pd.DataFrame(transformed_data, columns=self.standard_columns)] *)
Definition frame_of_dicts (data : list dict) : DataFrame pyval :=
  mkDataFrame (map (λ c, Some (txt c)) standard_columns)
    (map (λ row_data : dict, map (λ c, default VNone (row_data !! c)) standard_columns) data).

Definition transform_to_standard_schema (self : extractor) : result (DataFrame pyval) :=
  data ← transformed_data self;
  mret (frame_of_dicts data).

(** [main_option_2_whole_pdf], lines 483-486, up to the writing of the
    sheet. *)
Definition main_option_2_whole_pdf (pages : list (list table)) (h : heap)
  : result (DataFrame pyval * heap) :=
  '(self, h') ← extract_all_tables pages h;
  let self := mkExtractor (convert_numeric_columns (extracted_tables self))
                (table_metadata self) in
  df ← transform_to_standard_schema self;
  mret (df, h').

End Mapper.
End Script.

(** ** standard_schema_extractor.py: the earlier canonicaliser and the
    mapper with its loops written out *)

Module StandardSchema.

(** [_convert_to_numeric], lines 157-184. There is no guard on numbers,
    no rule for a dash, and the plain path returns the cleaned string. *)
Definition convert_to_numeric (repr_obj : pyval → text) (value : pyval) : pyval :=
  match value with
  | VNone => value
  | VSeries _ => value
  | _ =>
      let value_str := strip (py_str repr_obj value) in
      if bool_decide (value_str = []) || bool_decide (value_str = txt "nan")
      then VNone
      else if startswith c_lparen value_str && endswith c_rparen value_str
      then
        try_except
          (num ← py_float (replace_del c_space (replace_del c_comma (slice_1_m1 value_str)));
           mret (VFloat (float_neg num)))
          (VStr value_str)
      else
        try_except
          (let clean_value := replace_del c_space (replace_del c_comma value_str) in
           _ ← py_float clean_value;
           mret (VStr clean_value))
          (VStr value_str)
  end.

Section Mapper.

Variable today : text.
Variable repr_obj : pyval → text.

(** The body of the loop over the rows, lines 205-299 of
    standard_schema_extractor.py: the loops of script.py written out. *)
Definition row_record (primary_key_counter : Z) (table_idx row_idx : nat)
    (meta : Script.metadata) (row : list pyval) : result dict :=
  let row_data : dict := ∅ in
  let row_data := <["primary_key" := VInt primary_key_counter]> row_data in
  let row_data := <["date_last_updated" := VStr today]> row_data in
  let row_data := <["published_date" := VStr today]> row_data in
  let row_data := <["reported_date" := VStr (txt "2024-12-31")]> row_data in
  let row_data := <["doc_page_num" := VInt (Z.of_nat (Script.page meta))]> row_data in
  let row_data := <["file_page_num" := VInt (Z.of_nat (Script.page meta))]> row_data in
  let row_data :=
    <["table_id" := VStr (txt ("TABLE_" +:+ fmt_03d (table_idx + 1)))]> row_data in
  let row_data := <["country" := VStr (txt "PL")]> row_data in
  let row_data := <["geo_1_id" := VNone]> row_data in
  let row_data := <["geo_1_name" := VNone]> row_data in
  let row_data := <["geo_1_type" := VNone]> row_data in
  let row_data := <["geo_2_id" := VNone]> row_data in
  let row_data := <["geo_2_name" := VNone]> row_data in
  let row_data := <["geo_2_type" := VNone]> row_data in
  let extracted_cols := row in
  row_data ←
    (if bool_decide (0 < length extracted_cols)%nat
     then
       let row_data :=
         <["dim_1_id" := VStr (txt ("DIM1_" +:+ fmt table_idx +:+ "_" +:+ fmt row_idx))]>
           row_data in
       x ← py_index extracted_cols 0;
       mret (<["dim_1_name" := VStr (py_str repr_obj x)]> row_data)
     else
       let row_data := <["dim_1_id" := VNone]> row_data in
       mret (<["dim_1_name" := VNone]> row_data));
  row_data ←
    (if bool_decide (1 < length extracted_cols)%nat
     then
       let row_data :=
         <["dim_2_id" := VStr (txt ("DIM2_" +:+ fmt table_idx +:+ "_" +:+ fmt row_idx))]>
           row_data in
       x ← py_index extracted_cols 1;
       mret (<["dim_2_name" := VStr (py_str repr_obj x)]> row_data)
     else
       let row_data := <["dim_2_id" := VNone]> row_data in
       mret (<["dim_2_name" := VNone]> row_data));
  row_data ←
    (if bool_decide (2 < length extracted_cols)%nat
     then
       let row_data :=
         <["dim_3_id" := VStr (txt ("DIM3_" +:+ fmt table_idx +:+ "_" +:+ fmt row_idx))]>
           row_data in
       x ← py_index extracted_cols 2;
       mret (<["dim_3_name" := VStr (py_str repr_obj x)]> row_data)
     else
       let row_data := <["dim_3_id" := VNone]> row_data in
       mret (<["dim_3_name" := VNone]> row_data));
  row_data ←
    (if bool_decide (3 < length extracted_cols)%nat
     then
       let row_data :=
         <["dim_4_id" := VStr (txt ("DIM4_" +:+ fmt table_idx +:+ "_" +:+ fmt row_idx))]>
           row_data in
       x ← py_index extracted_cols 3;
       mret (<["dim_4_name" := VStr (py_str repr_obj x)]> row_data)
     else
       let row_data := <["dim_4_id" := VNone]> row_data in
       mret (<["dim_4_name" := VNone]> row_data));
  let row_data :=
    <["metric_id" := VStr (txt ("METRIC_" +:+ fmt table_idx +:+ "_" +:+ fmt row_idx))]>
      row_data in
  let row_data := <["metric_name" := VStr (txt ("Value_" +:+ fmt row_idx))]> row_data in
  let row_data :=
    <["source_metric_id" :=
        VStr (txt ("SOURCE_" +:+ fmt table_idx +:+ "_" +:+ fmt row_idx))]> row_data in
  let row_data := <["source_metric_name" := VStr (txt "PDF_Extracted")]> row_data in
  let row_data := <["indentation" := VInt 0]> row_data in
  let row_data := <["process_flag" := VInt 1]> row_data in
  let row_data := <["base_factor" := VInt 1]> row_data in
  let row_data := <["display_power_factor" := VInt 0]> row_data in
  let row_data := <["data_frequency" := VStr (txt "Annual")]> row_data in
  let row_data := <["aggregation_method" := VStr (txt "Sum")]> row_data in
  let row_data := <["unit" := VStr (txt "PLN")]> row_data in
  let row_data := <["unit_type" := VStr (txt "Thousands")]> row_data in
  let row_data := <["note_id" := VNone]> row_data in
  let row_data := <["note_reference" := VNone]> row_data in
  let row_data := <["cumulative_periods" := VInt 1]> row_data in
  let row_data :=
    <["comments" := VStr (txt ("Extracted from page " +:+ fmt (Script.page meta)))]>
      row_data in
  row_data ← for_in ["2022"; "2023"; "2024"]%string Script.clear_year row_data;
  row_data ←
    (if bool_decide (4 ≤ length extracted_cols)%nat
     then x ← (if bool_decide (3 < length extracted_cols)%nat
               then py_index extracted_cols (-1) else mret VNone);
          mret (<["2024" := x]> row_data)
     else mret row_data);
  row_data ←
    (if bool_decide (5 ≤ length extracted_cols)%nat
     then x ← (if bool_decide (4 < length extracted_cols)%nat
               then py_index extracted_cols (-2) else mret VNone);
          mret (<["2023" := x]> row_data)
     else mret row_data);
  row_data ←
    (if bool_decide (6 ≤ length extracted_cols)%nat
     then x ← (if bool_decide (5 < length extracted_cols)%nat
               then py_index extracted_cols (-3) else mret VNone);
          mret (<["2022" := x]> row_data)
     else mret row_data);
  let row_data := <["check_sum" := VNone]> row_data in
  let row_data := <["concat" := VNone]> row_data in
  let row_data := <["formula" := VNone]> row_data in
  mret row_data.

(** The loops of [transform_to_standard_schema], lines 197-302, the same
    as in script.py. *)
Definition transform_row (table_idx : nat) (meta : Script.metadata)
    (st : list dict * Z) (it : nat * list pyval) : result (list dict * Z) :=
  let '(transformed_data, primary_key_counter) := st in
  let '(row_idx, row) := it in
  row_data ← row_record primary_key_counter table_idx row_idx meta row;
  mret (transformed_data ++ [row_data], (primary_key_counter + 1)%Z).

Definition transform_table (st : list dict * Z)
    (it : nat * (DataFrame pyval * Script.metadata)) : result (list dict * Z) :=
  let '(table_idx, (df, meta)) := it in
  for_in (enumerate 0 (values df)) (transform_row table_idx meta) st.

Definition transformed_data (self : Script.extractor) : result (list dict) :=
  st ← for_in (enumerate 0 (zip (Script.extracted_tables self)
                                (Script.table_metadata self)))
         transform_table ([], 1%Z);
  mret st.1.

End Mapper.

End StandardSchema.

(** ** page8_extractor.py *)

Module Page8.

(** [_try_parse_number], lines 80-101, on a string cell. *)
Definition try_parse_number (value : text) : pyval :=
  if bool_decide (value = []) then VStr value
  else
    let text := strip value in
    if bool_decide (text = []) || bool_decide (text = txt "-") then VNone
    else
      try_except
        (if startswith c_lparen text && endswith c_rparen text
         then
           let num_str := replace_del c_space (replace_del c_comma (slice_1_m1 text)) in
           num ← py_float num_str;
           mret (VFloat (float_mul num (float_of_Z (-1))))
         else
           let num_str := replace_del c_space (replace_del c_comma text) in
           num ← py_float num_str;
           mret (VFloat num))
        (VStr text).

Definition keywords : list text :=
  [txt "balance"; txt "comprehensive"; txt "payment"; txt "contribution"; txt "sale"].

(** [_is_total_or_subtotal], lines 72-78, on a string cell. *)
Definition is_total_or_subtotal (cell_value : text) : bool :=
  if bool_decide (cell_value = []) then false
  else
    let text := lower cell_value in
    existsb (λ keyword, contains keyword text) keywords.

(** [while len(cleaned_row) < n: cleaned_row.append("")] *)
Equations? pad_cleaned (n : nat) (cleaned_row : list text) : list text
  by wf (n - length cleaned_row)%nat lt :=
  pad_cleaned n cleaned_row with decide (length cleaned_row < n)%nat => {
    | left _ := pad_cleaned n (cleaned_row ++ [[]]);
    | right _ := cleaned_row }.
Proof. rewrite length_app. simpl. lia. Qed.

(** A cell of [cleaned_row], lines 53-56. *)
Definition clean_cell (cell : cell) : text :=
  match cell with
  | None => []
  | Some t => strip t
  end.

(** The body of the loop over [table[1:]], lines 50-65. *)
Definition clean_row (headers : list text) (row : list cell) : list text :=
  let cleaned_row := map clean_cell row in
  let cleaned_row := pad_cleaned (length headers) cleaned_row in
  take (length headers) cleaned_row.

(** [extract_page_8], lines 44-68, on the first table of the page:
    [self.headers] and [self.data_rows]. *)
Definition extract_page_8 (table : list (list cell)) : list text * list (list text) :=
  match table with
  | [] => ([], [])
  | h :: data =>
      let headers :=
        map (λ h : cell, match h with
                         | Some (c :: t) => strip (c :: t)
                         | _ => []
                         end) h in
      (headers, map (clean_row headers) data)
  end.

End Page8.

(** ** pymupdf_extractor.py *)

(** The presentation class of a row. *)
Inductive RowRole := Header | Ordinary | Emphasis.

Module PyMuPDF.

(** [_parse_number], lines 71-81, on a string cell. *)
Definition parse_number (value : text) : pyval :=
  if bool_decide (value = []) || bool_decide (value = txt "-") then VNone
  else
    let text := strip value in
    let text' := replace_del c_return (replace_del c_newline text) in
    try_except
      (if startswith c_lparen text' && endswith c_rparen text'
       then
         num ← py_float (replace_del c_space (replace_del c_comma (slice_1_m1 text')));
         mret (VFloat (float_neg num))
       else
         num ← py_float (replace_del c_space (replace_del c_comma text'));
         mret (VFloat num))
      (VStr text').

(** A cell of [cleaned_row], lines 53-58 of [extract_page_8]. *)
Definition clean_cell (cell : cell) : text :=
  match cell with
  | None | Some [] => []
  | Some t => strip (replace_char c_newline c_space t)
  end.

(** [extract_page_8], lines 43-69, on the table of the page: what it
    returns and [self.table_data]. *)
Definition extract_page_8 (table : list (list cell)) : bool * list (list text) :=
  match table with
  | [] => (false, [])
  | _ =>
      let table_data := map (map clean_cell) table in
      (true, List.filter (existsb (λ cell : text, negb (bool_decide (cell = [])))) table_data)
  end.

Definition keywords : list text := [txt "balance as at"; txt "balance at"].

(** [is_total], line 107, for a set of keywords. *)
Definition is_total_with (keywords : list text) (row : list text) : bool :=
  match row with
  | [] => false
  | c :: _ => existsb (λ keyword, contains keyword (lower c)) keywords
  end.

(** The two flags of a row, lines 106-107, as its role. *)
Definition row_role_with (keywords : list text) (row_idx : nat) (row : list text)
  : RowRole :=
  let is_header := bool_decide (row_idx = 1%nat) in
  let is_total := is_total_with keywords row in
  if is_header then Header else if is_total then Emphasis else Ordinary.

(** The style a cell is written in, lines 112-131: the header fill, the
    fill of a total, or none. *)
Definition cell_role (is_header is_total : bool) (col_idx : nat) : RowRole :=
  if is_header then Header
  else if bool_decide (col_idx = 1%nat)
       then if is_total then Emphasis else Ordinary
       else if is_total then Emphasis else Ordinary.

(** The body of the loop over [enumerate(self.table_data, 1)], lines
    105-133: the roles of the cells of one row. *)
Definition row_roles_with (keywords : list text) (row_idx : nat) (row : list text)
  : list RowRole :=
  let is_header := bool_decide (row_idx = 1%nat) in
  let is_total := is_total_with keywords row in
  map (λ it : nat * text, cell_role is_header is_total it.1) (enumerate 1 row).

Definition create_excel_with (keywords : list text) (table_data : list (list text))
  : list (list RowRole) :=
  map (λ it : nat * list text, row_roles_with keywords it.1 it.2) (enumerate 1 table_data).

Definition create_excel := create_excel_with keywords.

End PyMuPDF.

(** ** extract_page8_changes_equity.py *)

Module ChangesEquity.

(** The state of the extractor object. *)
Record extractor := mkExtractor {
  headers : list cell;
  extracted_data : list (list text)
}.

(** The body of the loop over [data_rows], lines 48-64: the row is
    cleaned, padded with the loop of page8_extractor.py and cut to the
    width of the header. *)
Definition clean_row (headers : list cell) (row : list cell) : list text :=
  let cleaned_row := map Page8.clean_cell row in
  let cleaned_row := Page8.pad_cleaned (length headers) cleaned_row in
  take (length headers) cleaned_row.

(** The body of the loop over the tables of the page, lines 36-66. *)
Definition extract_table (self : extractor) (it : nat * list (list cell))
  : result extractor :=
  match it.2 with
  | [] => mret self
  | h :: data_rows =>
      mret (mkExtractor h (extracted_data self ++ map (clean_row h) data_rows))
  end.

(** [extract_page_8], lines 18-68. [pages] is what [extract_tables()]
    returns for each page of the document; page 8 is looked up without a
    test on the number of pages. *)
Definition extract_page_8 (pages : list (list (list (list cell))))
  : result (bool * extractor) :=
  tables ← py_index pages 7;
  match tables with
  | [] => mret (false, mkExtractor [] [])
  | _ =>
      self ← for_in (enumerate 0 tables) extract_table (mkExtractor [] []);
      mret (negb (bool_decide (extracted_data self = [])), self)
  end.

(** The value and the number format of a cell of a numeric column,
    lines 117-142 of [create_excel_file]: the text is written first, and
    replaced by a number when it parses. *)
Definition numeric_cell (value : text) : pyval * bool :=
  try_except
    (if startswith c_lparen value && endswith c_rparen value
     then
       numeric_val ← py_float (replace_del c_space (slice_1_m1 value));
       mret (VFloat (float_neg numeric_val), true)
     else
       numeric_val ← py_float (replace_del c_space (replace_del c_comma value));
       mret (VFloat numeric_val, true))
    (VStr value, false).

End ChangesEquity.


(** ** Vocabulary of the statements *)

(** [needle] occurs in [hay]. *)
Definition substring (needle hay : text) : Prop :=
  ∃ pre post, hay = pre ++ needle ++ post.

(** A row filled up to [W] cells with empty strings. *)
Definition filled {A} (W : nat) (fill : A) (row : list A) : list A :=
  row ++ replicate (W - length row) fill.

(** The shape of a rectangularised row: [W] cells, the leading cells of
    the input in their order, then the fill. *)
Definition rectangular {A} (W : nat) (fill : A) (row out : list A) : Prop :=
  length out = W
  ∧ (∀ j, (j < length row `min` W)%nat → out !! j = row !! j)
  ∧ (∀ j, (length row ≤ j < W)%nat → out !! j = Some fill).

(** A table in memory: its rows at the addresses 0, 1, 2, ... *)
Definition heap_of (rows : list (list cell)) : heap :=
  list_to_map (zip (seq 0 (length rows)) rows).

(** The number of rows of the tables that are mapped. *)
Definition row_count (tables : list (DataFrame pyval * Script.metadata)) : nat :=
  sum_list (map (λ it, length (values it.1)) tables).

(** What [extract_all_tables] keeps true of a table it has stored and of
    its entry of metadata. *)
Definition stored (pages : list (list table)) (df : DataFrame pyval)
    (m : Script.metadata) : Prop :=
  Script.rows m = length (values df)
  ∧ Script.n_columns m = length (columns df)
  ∧ empty df = false
  ∧ ∃ tables t, pages !! (Script.page m - 1)%nat = Some tables
                ∧ (1 ≤ Script.page m)%nat
                ∧ tables !! Script.table_index m = Some t.

(** From one state of the memory to a later one: the rows keep their
    cells and are at most extended with empty strings. *)
Definition only_padded (h h' : heap) : Prop :=
  ∀ a, ∃ k, row_at h' a = row_at h a ++ replicate k (Some []).

(** The label of column [j] occurs once among the labels. *)
Definition once (cols : list cell) (j : nat) : bool :=
  match cols !! j with
  | Some col =>
      bool_decide (length (List.filter (λ c, bool_decide (c = col)) cols) = 1%nat)
  | None => false
  end.

(** The characters of a text that [float] accepts: the decimal digits,
    of ASCII and of the other scripts, white space, the sign, the point,
    the exponent mark, the underscore, and the letters of inf, infinity
    and nan. *)
Definition float_char (c : N) : bool :=
  is_digit c || bool_decide (is_Some (decimal_value c)) || is_space c
  || bool_decide (c ∈ [43; 45; 46; 69; 101; 95])
  || bool_decide (lower_char c ∈ txt "infinity" ++ txt "nan").

(** Column [j] of a frame of cells holds a number and no text, once its
    cells are canonicalised. *)
Definition number_column (rows : list (list cell)) (j : nat) : Prop :=
  (∃ row c f, row ∈ rows ∧ row !! j = Some c
              ∧ Script.convert_to_numeric (of_cell c) = VFloat f)
  ∧ (∀ row c t, row ∈ rows → row !! j = Some c →
                Script.convert_to_numeric (of_cell c) ≠ VStr t).

(** A missing value as a column of floats holds it. *)
Definition missing_as_nan (v : pyval) : pyval :=
  match v with
  | VNone => VFloat S754_nan
  | _ => v
  end.

(** The characters of an amount: those of a text that [float] accepts,
    the parentheses and the thousands separator. *)
Definition amount_char (c : N) : bool :=
  float_char c || bool_decide (c ∈ [c_lparen; c_rparen; c_comma]).

(** * Properties *)

(** ** Text *)

Lemma lstrip_idemp (t : text) : lstrip (lstrip t) = lstrip t.
Proof.
  induction t as [|c t IH]; simpl; [done|].
  destruct (is_space c) eqn:E; [done|]. simpl. by rewrite E.
Qed.

Lemma lstrip_snoc (t : text) (c : N) :
  is_space c = false → lstrip (t ++ [c]) = lstrip t ++ [c].
Proof.
  intros E. induction t as [|x t IH]; simpl.
  - by rewrite E.
  - by destruct (is_space x).
Qed.

Lemma rstrip_idemp (t : text) : rstrip (rstrip t) = rstrip t.
Proof. unfold rstrip. by rewrite rev_involutive, lstrip_idemp. Qed.

(** Stripping on the right keeps a text that has nothing to strip on the
    left that way. *)
Lemma lstrip_rstrip_fixed (t : text) :
  lstrip t = t → lstrip (rstrip t) = rstrip t.
Proof.
  destruct t as [|c t]; [done|]. simpl.
  destruct (is_space c) eqn:E.
  - intros H. exfalso.
    assert (Hlen : ∀ u : text, (length (lstrip u) ≤ length u)%nat).
    { induction u as [|x u IHu]; simpl; [lia|]. destruct (is_space x); simpl; lia. }
    specialize (Hlen t). rewrite H in Hlen. simpl in Hlen. lia.
  - intros _. unfold rstrip. simpl rev.
    rewrite lstrip_snoc by done. rewrite rev_app_distr. simpl. by rewrite E.
Qed.

Lemma strip_idemp (t : text) : strip (strip t) = strip t.
Proof.
  unfold strip.
  rewrite (lstrip_rstrip_fixed (lstrip t)) by apply lstrip_idemp.
  apply rstrip_idemp.
Qed.

Lemma is_prefix_spec (needle hay : text) :
  is_prefix needle hay = true ↔ ∃ post, hay = needle ++ post.
Proof.
  revert hay. induction needle as [|a n IH]; intros hay; simpl.
  - split; [eauto | done].
  - destruct hay as [|b h].
    + split; [done | intros [post H]; discriminate].
    + rewrite andb_true_iff, bool_decide_eq_true, IH. split.
      * intros [-> [post ->]]. eauto.
      * intros [post [= -> ->]]. eauto.
Qed.

Lemma contains_spec (needle hay : text) :
  contains needle hay = true ↔ substring needle hay.
Proof.
  unfold substring. induction hay as [|b h IH]; simpl.
  - rewrite orb_false_r, is_prefix_spec. split.
    + intros [post H]. by exists [], post.
    + intros (pre & post & H). destruct pre; simpl in H.
      * eauto.
      * discriminate.
  - rewrite orb_true_iff, is_prefix_spec, IH. split.
    + intros [[post H] | (pre & post & ->)].
      * by exists [], post.
      * by exists (b :: pre), post.
    + intros (pre & post & H). destruct pre as [|x pre]; simpl in H.
      * left. eauto.
      * right. injection H as -> ->. eauto.
Qed.

(** ** The numeric canonicaliser of script.py *)

(** A string is canonicalised to [None], to a float, or to itself
    stripped. *)
Lemma convert_to_numeric_str_cases (s : text) :
  Script.convert_to_numeric (VStr s) = VNone
  ∨ (∃ f, Script.convert_to_numeric (VStr s) = VFloat f)
  ∨ Script.convert_to_numeric (VStr s) = VStr (strip s).
Proof.
  unfold Script.convert_to_numeric.
  destruct (_ || _); [by left|].
  destruct (_ || _); [by left|].
  destruct (_ && _).
  - destruct (py_float _) as [e|f]; simpl; [by right; right | right; left; eauto].
  - destruct (py_float _) as [e|f]; simpl; by right; right.
Qed.

Lemma convert_to_numeric_strip (s : text) :
  Script.convert_to_numeric (VStr (strip s)) = Script.convert_to_numeric (VStr s).
Proof. unfold Script.convert_to_numeric. by rewrite strip_idemp. Qed.




(** Claim C4, as amended. In script.py the sentinels are decided before
    any parsing and without regard to case: an absent cell, the empty
    string, the text nan in any case, a lone dash and a lone en-dash are
    canonicalised to [None]. The text is the cell's, stripped. The earlier
    canonicaliser of standard_schema_extractor.py has the first of these
    rules only, and compares with nan as it is written: an absent cell,
    the empty string and the text nan give [None], and a lone dash or
    en-dash comes back as text. *)
Theorem sentinels_are_null (v : pyval) :
  (v = VNone
   ∨ (∃ t, v = VStr t
           ∧ (strip t = [] ∨ lower (strip t) = txt "nan"
              ∨ strip t = txt "-" ∨ strip t = [c_endash])) →
   Script.convert_to_numeric v = VNone)
  ∧ (∀ repr_obj,
       v = VNone ∨ (∃ t, v = VStr t ∧ (strip t = [] ∨ strip t = txt "nan")) →
       StandardSchema.convert_to_numeric repr_obj v = VNone)
  ∧ (∀ repr_obj t,
       v = VStr t → strip t = txt "-" ∨ strip t = [c_endash] →
       StandardSchema.convert_to_numeric repr_obj v = VStr (strip t)).
Proof.
  split; [|split].
  - intros [-> | (t & -> & H)]; [done|].
    unfold Script.convert_to_numeric.
    destruct H as [H | [H | [H | H]]]; rewrite ?H.
    + done.
    + rewrite (bool_decide_true (txt "nan" = txt "nan")) by done.
      by rewrite orb_true_r.
    + done.
    + done.
  - intros repr_obj [-> | (t & -> & H)]; [done|].
    unfold StandardSchema.convert_to_numeric, py_str.
    by destruct H as [H | H]; rewrite H.
  - intros repr_obj t -> H.
    unfold StandardSchema.convert_to_numeric, py_str.
    by destruct H as [H | H]; rewrite H.
Qed.

Lemma sentinels_are_null_witness :
  Script.convert_to_numeric (VStr (txt " NaN ")) = VNone.
Proof.
  apply (proj1 (sentinels_are_null (VStr (txt " NaN ")))).
  right. exists (txt " NaN "). split; [reflexivity|].
  right. left. vm_compute. reflexivity.
Defined.

(** Claim C4 as it is stated fails in standard_schema_extractor.py: a
    lone dash, a lone en-dash and the text NaN come back as text. The
    text of a float is not asked for. *)
Lemma earlier_sentinels_stay_text :
  let convert := StandardSchema.convert_to_numeric (λ _, []) in
  convert (VStr (txt "-")) = VStr (txt "-")
  ∧ convert (VStr [c_endash]) = VStr [c_endash]
  ∧ convert (VStr (txt "NaN")) = VStr (txt "NaN").
Proof. by vm_compute. Qed.

Example null_of_none : Script.convert_to_numeric (of_cell None) = VNone.
Proof. reflexivity. Qed.

Example null_of_empty : Script.convert_to_numeric (VStr (txt "")) = VNone.
Proof. reflexivity. Qed.

Example null_of_nan :
  Script.convert_to_numeric (VStr (txt "nan")) = VNone
  ∧ Script.convert_to_numeric (VStr (txt "NAN")) = VNone.
Proof. by vm_compute. Qed.

Example null_of_dash :
  Script.convert_to_numeric (VStr (txt "-")) = VNone
  ∧ Script.convert_to_numeric (VStr [c_endash]) = VNone.
Proof. by vm_compute. Qed.

(** [float] takes the decimal digits of every script, here the
    Arabic-Indic 1, 2, 3, and raises on the separator U+001C, which
    [str.strip] takes for white space. *)
Example digits_of_other_scripts :
  py_float [1633; 1634; 1635] = inr (float_of_Z 123)
  ∧ Script.convert_to_numeric (VStr [c_lparen; 1633; 1634; 1635; c_rparen])
    = VFloat (float_of_Z (-123))
  ∧ py_float [28; 53] = inl ValueError
  ∧ Script.convert_to_numeric (VStr [c_lparen; 28; 53; c_rparen])
    = VStr [c_lparen; 28; 53; c_rparen].
Proof. by vm_compute. Qed.

Example text_stays_text :
  Script.convert_to_numeric (VStr (txt "N/A text")) = VStr (txt "N/A text").
Proof. by vm_compute. Qed.

Example parenthesised_is_negative :
  Script.convert_to_numeric (VStr (txt "(1,234)")) = VFloat (float_of_Z (-1234)).
Proof. by vm_compute. Qed.

(** A text in parentheses passes the sentinel tests. *)
Lemma parenthesised_tests (inner : text) :
  let value_str := c_lparen :: inner ++ [c_rparen] in
  bool_decide (value_str = []) || bool_decide (lower value_str = txt "nan") = false
  ∧ bool_decide (value_str = txt "-") || bool_decide (value_str = [c_endash]) = false
  ∧ startswith c_lparen value_str && endswith c_rparen value_str = true
  ∧ slice_1_m1 value_str = inner.
Proof.
  simpl. repeat split.
  - unfold endswith. simpl. by rewrite rev_app_distr.
  - unfold slice_1_m1. simpl. rewrite length_app. simpl.
    replace (length inner + 1 - 1)%nat with (length inner) by lia.
    rewrite drop_0. apply take_app_length.
Qed.

(** Claim C9. The rule for parentheses does not look at the sign of what
    it parsed: when the text between the parentheses, separators removed,
    parses to [f], the result is the float [-f]; the text (-5) gives the
    positive number 5.0, and gives it in each of the four parsers of the
    repository. *)
Theorem parenthesised_interior_is_negated :
  (∀ (t inner : text) (f : float),
     strip t = c_lparen :: inner ++ [c_rparen] →
     py_float (replace_del c_nbsp (replace_del c_space (replace_del c_comma inner)))
       = inr f →
     Script.convert_to_numeric (VStr t) = VFloat (float_neg f))
  ∧ Script.convert_to_numeric (VStr (txt "(-5)")) = VFloat (float_of_Z 5)
  ∧ (∀ repr_obj,
       StandardSchema.convert_to_numeric repr_obj (VStr (txt "(-5)"))
       = VFloat (float_of_Z 5))
  ∧ Page8.try_parse_number (txt "(-5)") = VFloat (float_of_Z 5)
  ∧ PyMuPDF.parse_number (txt "(-5)") = VFloat (float_of_Z 5).
Proof.
  split; [|by vm_compute].
  intros t inner f Ht Hf. unfold Script.convert_to_numeric. rewrite Ht.
  destruct (parenthesised_tests inner) as (-> & -> & -> & ->).
  by rewrite Hf.
Qed.

Lemma parenthesised_interior_is_negated_witness :
  Script.convert_to_numeric (VStr (txt " (- 5) ")) = VFloat (float_neg (float_of_Z (-5))).
Proof.
  apply (proj1 parenthesised_interior_is_negated (txt " (- 5) ") (txt "- 5")).
  - vm_compute. reflexivity.
  - vm_compute. reflexivity.
Defined.

(** The plain path of script.py never gives a number: the string
    concatenation in its [print] raises, and the handler returns the
    text. *)
Lemma plain_path_gives_no_number (s : text) :
  startswith c_lparen (strip s) && endswith c_rparen (strip s) = false →
  Script.convert_to_numeric (VStr s) = VNone
  ∨ Script.convert_to_numeric (VStr s) = VStr (strip s).
Proof.
  intros H. unfold Script.convert_to_numeric. rewrite H.
  destruct (_ || _); [by left|].
  destruct (_ || _); [by left|].
  right. by destruct (py_float _).
Qed.

Lemma plain_path_gives_no_number_witness :
  Script.convert_to_numeric (VStr (txt " 50 ")) = VNone
  ∨ Script.convert_to_numeric (VStr (txt " 50 ")) = VStr (strip (txt " 50 ")).
Proof.
  apply (plain_path_gives_no_number (txt " 50 ")). vm_compute. reflexivity.
Defined.

(** Claim C2, at the input 1 234. script.py returns the text as it was,
    standard_schema_extractor.py the text without its separators;
    page8_extractor.py and pymupdf_extractor.py return the number
    1234.0. *)
Theorem plain_number_stays_text :
  Script.convert_to_numeric (VStr (txt "1 234")) = VStr (txt "1 234")
  ∧ (∀ repr_obj,
       StandardSchema.convert_to_numeric repr_obj (VStr (txt "1 234")) = VStr (txt "1234"))
  ∧ Page8.try_parse_number (txt "1 234") = VFloat (float_of_Z 1234)
  ∧ PyMuPDF.parse_number (txt "1 234") = VFloat (float_of_Z 1234).
Proof. by vm_compute. Qed.

(** The earlier copy of the canonicaliser, in standard_schema_extractor.py,
    has no rule for a dash, compares with nan as it is written, and sends
    a number through [str]: a second application gives the text of the
    number. *)
Example earlier_canonicaliser_differs (repr_obj : pyval → text) :
  StandardSchema.convert_to_numeric repr_obj (VStr (txt "-")) = VStr (txt "-")
  ∧ StandardSchema.convert_to_numeric repr_obj (VStr (txt "NaN")) = VStr (txt "NaN")
  ∧ StandardSchema.convert_to_numeric repr_obj (VStr (txt "(5)")) = VFloat (float_of_Z (-5))
  ∧ (repr_obj (VFloat (float_of_Z (-5))) = txt "-5.0" →
     StandardSchema.convert_to_numeric repr_obj (VFloat (float_of_Z (-5)))
     = VStr (txt "-5.0")).
Proof.
  split; [by vm_compute|]. split; [by vm_compute|]. split; [by vm_compute|].
  intros H. unfold StandardSchema.convert_to_numeric, py_str. rewrite H.
  by vm_compute.
Qed.

(** ** The rectangulariser *)

Lemma filled_ge {A} (W : nat) (fill : A) (row : list A) :
  (W ≤ length row)%nat → filled W fill row = row.
Proof.
  intros H. unfold filled. replace (W - length row)%nat with O by lia.
  simpl. apply app_nil_r.
Qed.

Lemma length_filled {A} (W : nat) (fill : A) (row : list A) :
  length (filled W fill row) = (length row `max` W)%nat.
Proof. unfold filled. rewrite length_app, length_replicate. lia. Qed.

Lemma filled_idemp {A} (W : nat) (fill : A) (row : list A) :
  filled W fill (filled W fill row) = filled W fill row.
Proof. apply filled_ge. rewrite length_filled. lia. Qed.

Lemma filled_snoc {A} (W : nat) (fill : A) (row : list A) :
  (length row < W)%nat → filled W fill (row ++ [fill]) = filled W fill row.
Proof.
  intros H. unfold filled. rewrite length_app. simpl.
  replace (W - length row)%nat with (S (W - (length row + 1))) by lia.
  simpl. by rewrite <- app_assoc.
Qed.

Lemma row_at_append (row a : nat) (x : cell) (h : heap) :
  row_at (append row x h) a = if decide (a = row) then row_at h row ++ [x] else row_at h a.
Proof.
  unfold append, row_at at 1. destruct (decide (a = row)) as [->|Hne].
  - by rewrite lookup_insert_eq.
  - by rewrite lookup_insert_ne.
Qed.

(** The loop leaves the row filled up, and the other rows as they
    were. *)
Lemma row_at_pad (max_cols row : nat) (h : heap) (a : nat) :
  row_at (Script.pad max_cols row h) a
  = if decide (a = row) then filled max_cols (Some []) (row_at h row) else row_at h a.
Proof.
  funelim (Script.pad max_cols row h).
  - rewrite H, !row_at_append.
    destruct (decide (a = row)) as [->|Hne]; [|done].
    rewrite decide_True by done. by apply filled_snoc.
  - destruct (decide (a = row)) as [->|Hne]; [|done].
    symmetry. apply filled_ge. lia.
Qed.

Lemma map_fmap {A B} (f : A → B) (l : list A) : map f l = f <$> l.
Proof. reflexivity. Qed.

Lemma rectangular_take_filled {A} (W : nat) (fill : A) (row : list A) :
  rectangular W fill row (take W (filled W fill row)).
Proof.
  unfold rectangular, filled. repeat split.
  - rewrite length_take, length_app, length_replicate. lia.
  - intros j Hj. rewrite lookup_take_lt by lia. apply lookup_app_l. lia.
  - intros j Hj. rewrite lookup_take_lt by lia.
    rewrite lookup_app_r by lia. apply lookup_replicate_2. lia.
Qed.

Lemma pad_rows_spec (max_cols : nat) (data_rows : list nat) (h : heap) :
  (Script.pad_rows max_cols data_rows h).1
  = map (λ a, take max_cols (filled max_cols (Some []) (row_at h a))) data_rows
  ∧ ∀ a, row_at (Script.pad_rows max_cols data_rows h).2 a
         = if decide (a ∈ data_rows)
           then filled max_cols (Some []) (row_at h a) else row_at h a.
Proof.
  revert h. induction data_rows as [|row rest IH]; intros h.
  - split; [done|]. intros a. case_decide; [set_solver | done].
  - specialize (IH (Script.pad max_cols row h)).
    cbn [Script.pad_rows].
    destruct (Script.pad_rows max_cols rest (Script.pad max_cols row h))
      as [padded_rows h2] eqn:E.
    cbn [fst snd map] in *. destruct IH as [IH1 IH2]. split.
    + rewrite IH1. f_equal.
      * rewrite row_at_pad. by case_decide.
      * apply map_ext. intros a. rewrite row_at_pad.
        case_decide; [subst; by rewrite filled_idemp | done].
    + intros a. rewrite IH2, row_at_pad.
      repeat case_decide; subst; try done; try set_solver.
      by rewrite filled_idemp.
Qed.

Lemma page8_pad_cleaned_filled (n : nat) (cleaned_row : list text) :
  Page8.pad_cleaned n cleaned_row = filled n [] cleaned_row.
Proof.
  funelim (Page8.pad_cleaned n cleaned_row).
  - rewrite H. by apply filled_snoc.
  - symmetry. apply filled_ge. lia.
Qed.

Lemma elem_of_nonempty_rows (h : heap) (rows : list nat) (a : nat) :
  a ∈ Script.nonempty_rows h rows ↔ a ∈ rows ∧ existsb cell_truthy (row_at h a) = true.
Proof.
  unfold Script.nonempty_rows. rewrite !list_elem_of_In. apply filter_In.
Qed.

(** What [rectangularise] returns when it returns rows, and the heap it
    leaves. *)
Lemma rectangularise_Some (hd : nat) (rest : list nat) (h h' : heap)
    (headers : nat) (padded_rows : list (list cell)) :
  Script.rectangularise (hd :: rest) h = (Some (headers, padded_rows), h') →
  let W := length (row_at h hd) in
  headers = hd
  ∧ padded_rows
    = map (λ a, take W (filled W (Some []) (row_at h a))) (Script.nonempty_rows h rest)
  ∧ ∀ a, row_at h' a
         = if decide (a ∈ Script.nonempty_rows h rest)
           then filled W (Some []) (row_at h a) else row_at h a.
Proof.
  unfold Script.rectangularise. destruct rest as [|r rest]; [done|].
  case_bool_decide; [done|].
  pose proof (pad_rows_spec (length (row_at h hd))
                (Script.nonempty_rows h (r :: rest)) h) as [H1 H2].
  destruct (Script.pad_rows _ _ h) as [p h2]. simpl in H1, H2.
  intros [= <- <- <-]. done.
Qed.

(** When [rectangularise] returns nothing it has written nothing. *)
Lemma rectangularise_None (t : table) (h h' : heap) :
  Script.rectangularise t h = (None, h') → h' = h.
Proof.
  unfold Script.rectangularise. destruct t as [|hd [|r rest]]; try by intros [= <-].
  case_bool_decide; [by intros [= <-]|].
  by destruct (Script.pad_rows _ _ h).
Qed.





Lemma convert_table_to_dataframe_Some (t : table) (h h' : heap) (df : DataFrame cell) :
  Script.convert_table_to_dataframe t h = (Some df, h') →
  ∃ headers padded_rows,
    Script.rectangularise t h = (Some (headers, padded_rows), h')
    ∧ df = Script.clean_dataframe (mkDataFrame (row_at h' headers) padded_rows).
Proof.
  unfold Script.convert_table_to_dataframe.
  destruct (Script.rectangularise t h) as [[[headers padded_rows]|] h2]; [|done].
  intros [= <- <-]. eauto.
Qed.

(** Claim C10, as amended. The rectangulariser writes the caller's rows:
    when it returns a frame, each data row that has a non-empty cell has
    been extended in place with empty strings, up to the width of the
    header when it was shorter; a data row without a non-empty cell, the
    header row and every other list are as they were. *)
Theorem rectangulariser_pads_in_place (hd : nat) (rest : list nat) (h h' : heap)
    (df : DataFrame cell) :
  Script.convert_table_to_dataframe (hd :: rest) h = (Some df, h') →
  ∀ a,
    row_at h' a
    = (if decide (a ∈ rest ∧ existsb cell_truthy (row_at h a) = true)
       then row_at h a
              ++ replicate (length (row_at h hd) - length (row_at h a)) (Some [])
       else row_at h a)
    ∧ (a ∈ rest → existsb cell_truthy (row_at h a) = true →
       (length (row_at h a) < length (row_at h hd))%nat →
       length (row_at h' a) = length (row_at h hd)).
Proof.
  intros H a.
  apply convert_table_to_dataframe_Some in H as (headers & padded_rows & H & _).
  apply rectangularise_Some in H as (_ & _ & H).
  assert (Ha : row_at h' a
               = if decide (a ∈ rest ∧ existsb cell_truthy (row_at h a) = true)
                 then filled (length (row_at h hd)) (Some []) (row_at h a)
                 else row_at h a).
  { rewrite H. repeat case_decide; try done;
      exfalso; rewrite elem_of_nonempty_rows in *; tauto. }
  split; [done|].
  intros Hin Ht Hlt. rewrite Ha, decide_True by done.
  rewrite length_filled. lia.
Qed.

Lemma rectangulariser_pads_in_place_witness :
  let h := heap_of [[Some (txt "A"); Some (txt "B"); Some (txt "C")];
                    [Some (txt "x")]] in
  row_at (Script.convert_table_to_dataframe [0; 1]%nat h).2 1%nat
  = [Some (txt "x"); Some []; Some []].
Proof.
  intros h.
  pose proof (rectangulariser_pads_in_place 0%nat [1%nat] h
                (Script.convert_table_to_dataframe [0; 1]%nat h).2
                (mkDataFrame [Some (txt "A"); Some (txt "B"); Some (txt "C")]
                   [[Some (txt "x"); None; None]])
                ltac:(vm_compute; reflexivity) 1%nat) as [H _].
  rewrite H. vm_compute. reflexivity.
Defined.

(** Claim C10 as it is stated fails: a row without a non-empty cell is
    shorter than the header and is not extended. *)
Lemma empty_short_row_is_not_padded :
  let t := [0; 1; 2]%nat in
  let h := heap_of [[Some (txt "A"); Some (txt "B")]; [Some (txt "x")]; [None]] in
  contents h t = [[Some (txt "A"); Some (txt "B")]; [Some (txt "x")]; [None]]
  ∧ contents (Script.convert_table_to_dataframe t h).2 t
    = [[Some (txt "A"); Some (txt "B")]; [Some (txt "x"); Some []]; [None]].
Proof. by vm_compute. Qed.

(** When no frame is returned nothing has been written. *)
Lemma convert_table_to_dataframe_None (t : table) (h h' : heap) :
  Script.convert_table_to_dataframe t h = (None, h') → h' = h.
Proof.
  unfold Script.convert_table_to_dataframe.
  destruct (Script.rectangularise t h) as [[[headers padded_rows]|] h2] eqn:E; [done|].
  intros [= <-]. by apply rectangularise_None in E.
Qed.

Lemma convert_table_to_dataframe_None_witness :
  let h := heap_of [[Some (txt "A"); Some (txt "B")]; [None]] in
  (Script.convert_table_to_dataframe [0; 1]%nat h).2 = h.
Proof.
  intros h. apply (convert_table_to_dataframe_None [0; 1]%nat h).
  vm_compute. reflexivity.
Defined.

(** ** The width of the rows after cleaning *)

Lemma length_select {A B} (f : B → bool) (l : list B) (xs : list A) :
  length xs = length l →
  length (select (map f l) xs) = length (List.filter f l).
Proof.
  revert xs. induction l as [|b l IH]; intros [|x xs]; simpl; try done.
  intros [= H]. destruct (f b); simpl; by rewrite IH.
Qed.

(** A row without a value is in no column a value. *)
Lemma column_notna_dropna (rows : list (list cell)) (j : nat) :
  column_notna (List.filter (existsb notna) rows) j = column_notna rows j.
Proof.
  unfold column_notna. induction rows as [|r rows IH]; simpl; [done|].
  destruct (existsb notna r) eqn:E; simpl; [by rewrite IH|].
  rewrite IH. destruct (r !! j) as [c|] eqn:Ej; simpl; [|done].
  destruct (notna c) eqn:Ec; [|done].
  exfalso. apply not_true_iff_false in E. apply E.
  apply existsb_exists. exists c. split; [|done].
  apply list_elem_of_In. by eapply list_elem_of_lookup_2.
Qed.

(** The frame after cleaning: which columns it keeps, and that its rows
    have as many cells as it has columns. *)
Lemma clean_dataframe_shape (cols : list cell) (rows : list (list cell)) :
  Forall (λ row, length row = length cols) rows →
  let df := Script.clean_dataframe (mkDataFrame cols rows) in
  length (columns df) = length (List.filter (column_notna rows) (seq 0 (length cols)))
  ∧ Forall (λ row, length row = length (columns df)) (values df).
Proof.
  intros Hrows. unfold Script.clean_dataframe, frame_map, dropna_columns, dropna_rows.
  simpl.
  erewrite (map_ext_in (column_notna (List.filter _ rows)))
    by (intros; apply column_notna_dropna).
  split.
  - apply length_select. by rewrite length_seq.
  - rewrite !map_fmap, !Forall_fmap. apply Forall_forall.
    intros row Hrow. simpl. rewrite !length_map.
    apply list_elem_of_In, filter_In in Hrow as [Hrow _].
    rewrite Forall_forall in Hrows. apply list_elem_of_In, Hrows in Hrow.
    rewrite !length_select; by rewrite ?length_seq.
Qed.

Lemma Forall_length {A} (n : nat) (l : list (list A)) :
  Forall (λ row, length row = n) l ↔ Forall (λ k, k = n) (map length l).
Proof. by rewrite map_fmap, Forall_fmap. Qed.

Lemma convert_column_shape (col : cell) (df : DataFrame pyval) :
  columns (Script.convert_column col df) = columns df
  ∧ map length (values (Script.convert_column col df)) = map length (values df).
Proof.
  unfold Script.convert_column. case_bool_decide; [|done]. simpl. split; [done|].
  rewrite map_map. apply map_ext. intros row. apply length_imap.
Qed.

Lemma convert_numeric_frame_shape (df : DataFrame pyval) :
  columns (Script.convert_numeric_frame df) = columns df
  ∧ map length (values (Script.convert_numeric_frame df)) = map length (values df).
Proof.
  unfold Script.convert_numeric_frame. generalize (columns df) at 1 3.
  intros cols. revert df. induction cols as [|col cols IH]; intros df; simpl; [done|].
  destruct (IH (Script.convert_column col df)) as [-> ->].
  apply convert_column_shape.
Qed.

(** Claim C5, as amended. After rectangularisation every row of a table
    has exactly [W] cells, [W] the width of the header. Cleaning then
    drops the columns that hold no value in any row, so the rows of the
    cleaned table have one common length, the number of columns that hold
    a value, which is at most [W]; the numeric conversion keeps the
    columns and the length of every row. *)
Theorem cleaned_rows_share_a_width (hd : nat) (rest : list nat) (h h' : heap)
    (df : DataFrame cell) :
  Script.convert_table_to_dataframe (hd :: rest) h = (Some df, h') →
  let W := length (row_at h hd) in
  ∃ padded_rows,
    (Script.rectangularise (hd :: rest) h).1 = Some (hd, padded_rows)
    ∧ Forall (λ row, length row = W) padded_rows
    ∧ length (columns df)
      = length (List.filter (column_notna padded_rows) (seq 0 W))
    ∧ (length (columns df) ≤ W)%nat
    ∧ Forall (λ row, length row = length (columns df)) (values df)
    ∧ columns (Script.convert_numeric_frame (frame_map of_cell df)) = columns df
    ∧ Forall (λ row, length row = length (columns df))
        (values (Script.convert_numeric_frame (frame_map of_cell df))).
Proof.
  intros H W.
  apply convert_table_to_dataframe_Some in H as (headers & padded_rows & H & ->).
  pose proof H as (-> & Hp & Hh)%rectangularise_Some.
  exists padded_rows. rewrite H. split; [done|].
  assert (Hhd : row_at h' hd = row_at h hd).
  { rewrite Hh. case_decide; [|done]. by apply filled_ge. }
  assert (HW : Forall (λ row, length row = W) padded_rows).
  { rewrite Hp, map_fmap, Forall_fmap. apply Forall_forall. intros a _. simpl.
    apply rectangular_take_filled. }
  split; [done|]. rewrite Hhd.
  destruct (clean_dataframe_shape (row_at h hd) padded_rows HW) as [Hc Hv].
  fold W in Hc. split; [done|]. split.
  { rewrite Hc. etransitivity; [apply filter_length_le|]. by rewrite length_seq. }
  split; [done|].
  destruct (convert_numeric_frame_shape
              (frame_map of_cell
                 (Script.clean_dataframe (mkDataFrame (row_at h hd) padded_rows))))
    as [Hc' Hv'].
  split; [done|].
  apply Forall_length. rewrite Hv'. unfold frame_map. cbn [values].
  rewrite map_map. erewrite map_ext by (intros; apply length_map).
  by apply Forall_length.
Qed.

Lemma cleaned_rows_share_a_width_witness :
  let h := heap_of [[Some (txt "A"); Some (txt "B"); Some (txt "C")];
                    [Some (txt "x"); None; Some (txt "(1)")]] in
  ∃ padded_rows,
    (Script.rectangularise [0; 1]%nat h).1 = Some (0%nat, padded_rows)
    ∧ Forall (λ row, length row = 3%nat) padded_rows
    ∧ 2%nat = length (List.filter (column_notna padded_rows) (seq 0 3))
    ∧ (2 ≤ 3)%nat
    ∧ Forall (λ row, length row = 2%nat) [[Some (txt "x"); Some (txt "(1)")]]
    ∧ [Some (txt "A"); Some (txt "C")] = [Some (txt "A"); Some (txt "C")]
    ∧ Forall (λ row, length row = 2%nat)
        [[VStr (txt "x"); VFloat (float_of_Z (-1))]].
Proof.
  intros h.
  apply (cleaned_rows_share_a_width 0%nat [1%nat] h
           (Script.convert_table_to_dataframe [0; 1]%nat h).2
           (mkDataFrame [Some (txt "A"); Some (txt "C")]
              [[Some (txt "x"); Some (txt "(1)")]])).
  vm_compute. reflexivity.
Defined.

(** Claim C5 as it is stated fails: the header has two cells, and the
    row of the cleaned table has one. *)
Lemma absent_column_is_dropped :
  (Script.convert_table_to_dataframe [0; 1]%nat
     (heap_of [[Some (txt "A"); Some (txt "B")]; [Some (txt "x"); None]])).1
  = Some (mkDataFrame [Some (txt "A")] [[Some (txt "x")]]).
Proof. by vm_compute. Qed.

(** ** The schema mapper *)

Lemma py_index_nonneg {A} (l : list A) (i : nat) (x : A) :
  l !! i = Some x → py_index l (Z.of_nat i) = inr x.
Proof.
  intros H. unfold py_index.
  rewrite !(proj2 (Z.ltb_ge (Z.of_nat i) 0)) by lia.
  by rewrite Nat2Z.id, H.
Qed.

Lemma py_index_neg {A} (l : list A) (k : nat) (x : A) :
  (1 ≤ k ≤ length l)%nat → l !! (length l - k)%nat = Some x →
  py_index l (- Z.of_nat k) = inr x.
Proof.
  intros Hk H. unfold py_index.
  rewrite !(proj2 (Z.ltb_lt (- Z.of_nat k) 0)) by lia.
  rewrite (proj2 (Z.ltb_ge (Z.of_nat (length l) + - Z.of_nat k) 0)) by lia.
  replace (Z.to_nat (Z.of_nat (length l) + - Z.of_nat k)) with (length l - k)%nat by lia.
  by rewrite H.
Qed.

Section MapperFacts.

Variable today : text.
Variable repr_obj : pyval → text.

Lemma set_year_spec (n k : nat) (year : string) (cols : list pyval) (d : dict) :
  (1 ≤ k ≤ n)%nat →
  Script.set_year n year (- Z.of_nat k) cols d
  = inr (if decide (n ≤ length cols)%nat
         then <[year := default VNone (cols !! (length cols - k)%nat)]> d
         else d).
Proof.
  intros Hk. unfold Script.set_year. case_bool_decide.
  - rewrite decide_True by done.
    destruct (lookup_lt_is_Some_2 cols (length cols - k)%nat) as [x Hx]; [lia|].
    rewrite (py_index_neg cols k x) by (done || lia). by rewrite Hx.
  - by rewrite decide_False.
Qed.

Lemma set_dim_spec (table_idx row_idx : nat) (cols : list pyval) (d : dict) (i : nat) :
  (1 ≤ i)%nat →
  Script.set_dim repr_obj table_idx row_idx cols d i
  = inr (if decide (i ≤ length cols)%nat
         then <["dim_" +:+ fmt i +:+ "_name" :=
                  VStr (py_str repr_obj (default VNone (cols !! (i - 1)%nat)))]>
                (<["dim_" +:+ fmt i +:+ "_id" :=
                     VStr (txt ("DIM" +:+ fmt i +:+ "_" +:+ fmt table_idx
                                +:+ "_" +:+ fmt row_idx))]> d)
         else <["dim_" +:+ fmt i +:+ "_name" := VNone]>
                (<["dim_" +:+ fmt i +:+ "_id" := VNone]> d)).
Proof.
  intros Hi. unfold Script.set_dim. case_bool_decide.
  - rewrite decide_True by done.
    destruct (lookup_lt_is_Some_2 cols (i - 1)%nat) as [x Hx]; [lia|].
    replace (Z.of_nat i - 1)%Z with (Z.of_nat (i - 1)) by lia.
    rewrite (py_index_nonneg cols (i - 1) x) by done. by rewrite Hx.
  - by rewrite decide_False.
Qed.

(** Lookups below a guarded assignment. *)
Lemma lookup_if_insert_ne (P : Prop) `{!Decision P} (d : dict) (k k' : string) (v : pyval) :
  k ≠ k' → (if decide P then <[k := v]> d else d) !! k' = d !! k'.
Proof. intros. case_decide; [by rewrite lookup_insert_ne | done]. Qed.

Lemma lookup_if_insert_eq (P : Prop) `{!Decision P} (d : dict) (k : string) (v : pyval) :
  (if decide P then <[k := v]> d else d) !! k = if decide P then Some v else d !! k.
Proof. case_decide; [by rewrite lookup_insert_eq | done]. Qed.

Lemma lookup_if_insert2_ne (P : Prop) `{!Decision P} (d : dict) (k1 k2 k' : string)
    (v1 v2 w1 w2 : pyval) :
  k1 ≠ k' → k2 ≠ k' →
  (if decide P then <[k1 := v1]> (<[k2 := v2]> d)
   else <[k1 := w1]> (<[k2 := w2]> d)) !! k' = d !! k'.
Proof. intros. case_decide; by rewrite !lookup_insert_ne. Qed.

(** Two keys of a dictionary differ. *)
Ltac keys_differ :=
  let H := fresh in intros H; vm_compute in H; discriminate H.

Ltac skip_inserts :=
  repeat first
    [ rewrite lookup_insert_ne by keys_differ
    | rewrite lookup_if_insert_ne by keys_differ
    | rewrite lookup_if_insert2_ne by keys_differ ].

Ltac run_row_record :=
  unfold Script.row_record; cbn [for_in seq];
  unfold Script.set_none, Script.clear_year;
  cbn [mbind mret result_bind result_ret];
  repeat (rewrite set_dim_spec by lia; cbn [mbind mret result_bind result_ret]);
  rewrite (set_year_spec 4 1) by lia; cbn [mbind mret result_bind result_ret];
  rewrite (set_year_spec 5 2) by lia; cbn [mbind mret result_bind result_ret];
  rewrite (set_year_spec 6 3) by lia; cbn [mbind mret result_bind result_ret].

(** The loop body raises nothing and gives a dictionary with the
    counter as its key and the periods filled from the trailing cells,
    each under its guard. *)
Lemma row_record_spec (pk : Z) (ti ri : nat) (meta : Script.metadata) (row : list pyval) :
  ∃ rd : dict,
    Script.row_record today repr_obj pk ti ri meta row = inr rd
    ∧ rd !! "primary_key" = Some (VInt pk)
    ∧ rd !! "2024"
      = Some (if decide (4 ≤ length row)%nat
              then default VNone (row !! (length row - 1)%nat) else VNone)
    ∧ rd !! "2023"
      = Some (if decide (5 ≤ length row)%nat
              then default VNone (row !! (length row - 2)%nat) else VNone)
    ∧ rd !! "2022"
      = Some (if decide (6 ≤ length row)%nat
              then default VNone (row !! (length row - 3)%nat) else VNone)
    ∧ rd !! "dim_1_name"
      = Some (match row with
              | x :: _ => VStr (py_str repr_obj x)
              | [] => VNone
              end).
Proof.
  run_row_record. eexists. split; [reflexivity|].
  repeat split; skip_inserts.
  - by rewrite lookup_insert_eq.
  - rewrite lookup_if_insert_eq. skip_inserts. rewrite lookup_insert_eq.
    by case_decide.
  - rewrite lookup_if_insert_eq. skip_inserts. rewrite lookup_insert_eq.
    by case_decide.
  - rewrite lookup_if_insert_eq. skip_inserts. rewrite lookup_insert_eq.
    by case_decide.
  - case_decide; rewrite lookup_insert_eq; destruct row; simpl in *; done || lia.
Qed.

Lemma enumerate_cons {A} (start : nat) (x : A) (l : list A) :
  enumerate start (x :: l) = (start, x) :: enumerate (S start) l.
Proof. reflexivity. Qed.

(** The loop over the rows of one table: one dictionary per row, the
    counter advancing by one each time. *)
Lemma transform_rows_spec (ti : nat) (meta : Script.metadata) (rows : list (list pyval))
    (start : nat) (td : list dict) (pk : Z) :
  ∃ td' : list dict,
    for_in (enumerate start rows) (Script.transform_row today repr_obj ti meta) (td, pk)
    = inr (td ++ td', (pk + Z.of_nat (length rows))%Z)
    ∧ length td' = length rows
    ∧ ∀ (i : nat) (rd : dict),
        td' !! i = Some rd → rd !! "primary_key" = Some (VInt (pk + Z.of_nat i)).
Proof.
  revert start td pk. induction rows as [|row rows IH]; intros start td pk.
  - exists []. simpl. rewrite app_nil_r, Z.add_0_r. done.
  - rewrite enumerate_cons. cbn [for_in]. unfold Script.transform_row at 2.
    destruct (row_record_spec pk ti start meta row) as (rd & -> & Hpk & _).
    cbn [mbind mret result_bind result_ret].
    destruct (IH (S start) (td ++ [rd]) (pk + 1)%Z) as (td' & -> & Hlen & Hkeys).
    exists (rd :: td'). split; [|split].
    + rewrite <- app_assoc. simpl. do 2 f_equal. lia.
    + simpl. by rewrite Hlen.
    + intros [|i] rd'; simpl.
      * intros [= <-]. by rewrite Z.add_0_r.
      * intros H. rewrite (Hkeys i rd' H). do 2 f_equal. lia.
Qed.

Lemma transform_tables_spec (tables : list (DataFrame pyval * Script.metadata))
    (start : nat) (td : list dict) (pk : Z) :
  ∃ td' : list dict,
    for_in (enumerate start tables) (Script.transform_table today repr_obj) (td, pk)
    = inr (td ++ td', (pk + Z.of_nat (row_count tables))%Z)
    ∧ length td' = row_count tables
    ∧ ∀ (i : nat) (rd : dict),
        td' !! i = Some rd → rd !! "primary_key" = Some (VInt (pk + Z.of_nat i)).
Proof.
  revert start td pk. induction tables as [|[df meta] tables IH]; intros start td pk.
  - exists []. simpl. rewrite app_nil_r, Z.add_0_r. done.
  - rewrite enumerate_cons. cbn [for_in]. unfold Script.transform_table at 2.
    destruct (transform_rows_spec start meta (values df) 0 td pk)
      as (td1 & -> & Hlen1 & Hkeys1).
    cbn [mbind mret result_bind result_ret].
    destruct (IH (S start) (td ++ td1) (pk + Z.of_nat (length (values df)))%Z)
      as (td2 & -> & Hlen2 & Hkeys2).
    exists (td1 ++ td2). unfold row_count in *. simpl. split; [|split].
    + rewrite <- app_assoc. do 2 f_equal. lia.
    + rewrite length_app. lia.
    + intros i rd H. apply lookup_app_Some in H as [H | [Hge H]].
      * by apply Hkeys1.
      * rewrite (Hkeys2 _ _ H). do 2 f_equal. lia.
Qed.

(** The second test of a guarded period, [len(extracted_cols) > m], holds
    whenever the first one does. *)
Lemma guarded_year_set_year (m : nat) (year : string) (i : Z) (cols : list pyval)
    (d : dict) :
  (if bool_decide (S m ≤ length cols)%nat
   then x ← (if bool_decide (m < length cols)%nat
             then py_index cols i else mret VNone);
        mret (<[year := x]> d)
   else mret d)
  = Script.set_year (S m) year i cols d.
Proof.
  unfold Script.set_year. case_bool_decide; [|done].
  by rewrite bool_decide_true by lia.
Qed.

Lemma guarded_dim_spec (i : nat) (name_key : string) (cols : list pyval) (d1 d2 : dict) :
  (if bool_decide (i < length cols)%nat
   then x ← py_index cols (Z.of_nat i);
        mret (<[name_key := VStr (py_str repr_obj x)]> d1)
   else mret d2)
  = inr (if decide (S i ≤ length cols)%nat
         then <[name_key := VStr (py_str repr_obj (default VNone (cols !! i)))]> d1
         else d2).
Proof.
  case_bool_decide.
  - rewrite decide_True by lia.
    destruct (lookup_lt_is_Some_2 cols i) as [x Hx]; [lia|].
    rewrite (py_index_nonneg cols i x) by done. by rewrite Hx.
  - by rewrite decide_False by lia.
Qed.

(** The two files build the same dictionary for every row. *)
Lemma row_record_same (pk : Z) (ti ri : nat) (meta : Script.metadata) (row : list pyval) :
  StandardSchema.row_record today repr_obj pk ti ri meta row
  = Script.row_record today repr_obj pk ti ri meta row.
Proof.
  run_row_record.
  unfold StandardSchema.row_record.
  rewrite (guarded_dim_spec 0). cbn [mbind mret result_bind result_ret].
  rewrite (guarded_dim_spec 1). cbn [mbind mret result_bind result_ret].
  rewrite (guarded_dim_spec 2). cbn [mbind mret result_bind result_ret].
  rewrite (guarded_dim_spec 3). cbn [mbind mret result_bind result_ret].
  cbn [for_in]. unfold Script.clear_year. cbn [mbind mret result_bind result_ret].
  rewrite (guarded_year_set_year 3), (set_year_spec 4 1) by lia.
  cbn [mbind mret result_bind result_ret].
  rewrite (guarded_year_set_year 4), (set_year_spec 5 2) by lia.
  cbn [mbind mret result_bind result_ret].
  rewrite (guarded_year_set_year 5), (set_year_spec 6 3) by lia.
  cbn [mbind mret result_bind result_ret].
  reflexivity.
Qed.

Lemma for_in_ext {A S} (xs : list A) (f g : S → A → result S) (s : S) :
  (∀ s x, f s x = g s x) → for_in xs f s = for_in xs g s.
Proof.
  intros H. revert s. induction xs as [|x xs IH]; intros s; simpl; [done|].
  rewrite H. destruct (g s x); simpl; [done | apply IH].
Qed.

(** The mapper of standard_schema_extractor.py is the mapper of
    script.py. *)
Lemma transformed_data_same (self : Script.extractor) :
  StandardSchema.transformed_data today repr_obj self
  = Script.transformed_data today repr_obj self.
Proof.
  unfold StandardSchema.transformed_data, Script.transformed_data.
  f_equal. apply for_in_ext. intros st [table_idx [df meta]].
  unfold StandardSchema.transform_table, Script.transform_table.
  apply for_in_ext. intros [td pk] [row_idx row].
  unfold StandardSchema.transform_row, Script.transform_row.
  by rewrite row_record_same.
Qed.

(** For every state of the extractor, the mapper of
    standard_schema_extractor.py and the mapper of script.py give the same
    result, row dictionary by row dictionary. *)
Theorem mappers_agree (self : Script.extractor) :
  StandardSchema.transformed_data today repr_obj self
  = Script.transformed_data today repr_obj self
  ∧ ∀ pk ti ri meta row,
      StandardSchema.row_record today repr_obj pk ti ri meta row
      = Script.row_record today repr_obj pk ti ri meta row.
Proof. split; [apply transformed_data_same | apply row_record_same]. Qed.

(** Claim C7. In one run of the mapper the primary keys of the records
    are 1, 2, 3, ... in the order of emission: the record at position [i]
    has the key [i + 1], whatever table it comes from, and there is one
    record for every row of every table. The key is the first column of
    the frame that is returned. The mapper of standard_schema_extractor.py
    gives the same records. *)
Theorem primary_keys_are_dense (self : Script.extractor) :
  ∃ data : list dict,
    Script.transformed_data today repr_obj self = inr data
    ∧ StandardSchema.transformed_data today repr_obj self = inr data
    ∧ Script.transform_to_standard_schema today repr_obj self
      = inr (Script.frame_of_dicts data)
    ∧ length data
      = row_count (zip (Script.extracted_tables self) (Script.table_metadata self))
    ∧ (∀ (i : nat) (rd : dict),
         data !! i = Some rd → rd !! "primary_key" = Some (VInt (Z.of_nat i + 1)))
    ∧ (∀ (i : nat) (row : list pyval),
         values (Script.frame_of_dicts data) !! i = Some row →
         row !! 0%nat = Some (VInt (Z.of_nat i + 1))).
Proof.
  rewrite transformed_data_same.
  unfold Script.transform_to_standard_schema, Script.transformed_data.
  destruct (transform_tables_spec
              (zip (Script.extracted_tables self) (Script.table_metadata self))
              0 [] 1) as (data & -> & Hlen & Hkeys).
  exists data. cbn [mbind mret result_bind result_ret fst app].
  repeat split; [done|..].
  - intros i rd H. rewrite (Hkeys i rd H). do 2 f_equal. lia.
  - intros i row. unfold Script.frame_of_dicts. cbn [values].
    rewrite map_fmap, list_lookup_fmap.
    destruct (data !! i) as [rd|] eqn:E; [|done]. intros [= <-].
    simpl. rewrite (Hkeys i rd E). simpl. do 2 f_equal. lia.
Qed.

(** The keys of a dictionary, assignment by assignment. *)
Lemma keys_empty : dom (∅ : dict) = list_to_set [].
Proof. by rewrite dom_empty_L. Qed.

Lemma keys_insert (k : string) (v : pyval) (d : dict) (l : list string) :
  dom d = list_to_set l → dom (<[k := v]> d) = list_to_set (k :: l).
Proof. intros H. by rewrite dom_insert_L, H. Qed.

Lemma keys_if_insert2 (P : Prop) `{!Decision P} (d : dict) (k1 k2 : string)
    (v1 v2 w1 w2 : pyval) (l : list string) :
  dom d = list_to_set l →
  dom (if decide P then <[k1 := v1]> (<[k2 := v2]> d)
       else <[k1 := w1]> (<[k2 := w2]> d)) = list_to_set (k1 :: k2 :: l).
Proof. intros H. case_decide; by rewrite !dom_insert_L, H. Qed.

Lemma keys_if_insert (P : Prop) `{!Decision P} (d : dict) (k : string) (v : pyval)
    (l : list string) :
  dom d = list_to_set l → k ∈ l →
  dom (if decide P then <[k := v]> d else d) = list_to_set l.
Proof.
  intros H Hk. case_decide; [|done]. rewrite dom_insert_L, H.
  apply (elem_of_list_to_set (C := gset string)) in Hk. set_solver.
Qed.

Lemma list_to_set_same (l1 l2 : list string) :
  bool_decide (Forall (λ k, k ∈ l2) l1) && bool_decide (Forall (λ k, k ∈ l1) l2) = true →
  list_to_set l1 =@{gset string} list_to_set l2.
Proof.
  intros [H1 H2]%andb_true_iff.
  apply bool_decide_eq_true in H1, H2. rewrite Forall_forall in H1, H2.
  apply set_eq. intros k. rewrite !elem_of_list_to_set. split; auto.
Qed.

Ltac keys :=
  lazymatch goal with
  | |- dom (if decide _ then <[_ := _]> ?d else ?d) = _ =>
      eapply keys_if_insert; [keys | apply (bool_decide_unpack _); vm_compute; exact I]
  | |- dom (if decide _ then <[_ := _]> (<[_ := _]> _) else _) = _ =>
      eapply keys_if_insert2; keys
  | |- dom (<[_ := _]> _) = _ => eapply keys_insert; keys
  | |- dom ∅ = _ => apply keys_empty
  end.

Lemma row_record_keys (pk : Z) (ti ri : nat) (meta : Script.metadata)
    (row : list pyval) :
  ∃ rd : dict,
    Script.row_record today repr_obj pk ti ri meta row = inr rd
    ∧ dom rd = list_to_set Script.standard_columns.
Proof.
  run_row_record. eexists. split; [reflexivity|].
  etrans; [keys|].
  apply list_to_set_same. vm_compute. reflexivity.
Qed.

(** The loop body raises nothing, in either file, and the dictionary it
    builds has the columns of the schema for its keys, each of them and
    no other: the frame built from the dictionaries under these columns
    drops no entry and fills no gap. *)
Theorem records_have_the_standard_columns (pk : Z) (ti ri : nat)
    (meta : Script.metadata) (row : list pyval) :
  ∃ rd : dict,
    Script.row_record today repr_obj pk ti ri meta row = inr rd
    ∧ StandardSchema.row_record today repr_obj pk ti ri meta row = inr rd
    ∧ (∀ k, is_Some (rd !! k) ↔ k ∈ Script.standard_columns)
    ∧ Forall2 (λ c v, rd !! c = Some v) Script.standard_columns
        (map (λ c, default VNone (rd !! c)) Script.standard_columns).
Proof.
  rewrite row_record_same.
  destruct (row_record_keys pk ti ri meta row) as (rd & E & Hdom).
  exists rd. split; [exact E|]. split; [exact E|].
  assert (Hkeys : ∀ k, is_Some (rd !! k) ↔ k ∈ Script.standard_columns).
  { intros k. by rewrite <- elem_of_dom, Hdom, elem_of_list_to_set. }
  split; [exact Hkeys|].
  rewrite map_fmap. apply Forall2_fmap_r, Forall_Forall2_diag, Forall_forall.
  intros c Hc. apply Hkeys in Hc as [v Hv]. simpl. by rewrite Hv.
Qed.

End MapperFacts.

Section PeriodFacts.

Variable today : text.
Variable repr_obj : pyval → text.

(** Claim C1, as amended. Every row gives one record. The last cell of
    the row is the value of the period 2024 when the row has at least four
    cells, the cell before it the value of 2023 when the row has at least
    five, the third cell from the end the value of 2022 when it has at
    least six; a period whose guard fails is null. The row of three cells
    Share capital, (100), 50 under the header Item, 2023, 2024 gives one
    record, with the first dimension named Share capital and the three
    periods null. The row dictionary of standard_schema_extractor.py is
    the same. *)
Theorem trailing_cells_fill_the_periods :
  (∀ (pk : Z) (ti ri : nat) (meta : Script.metadata) (row : list pyval),
     ∃ rd : dict,
       Script.row_record today repr_obj pk ti ri meta row = inr rd
       ∧ StandardSchema.row_record today repr_obj pk ti ri meta row = inr rd
       ∧ ((4 ≤ length row)%nat → rd !! "2024" = row !! (length row - 1)%nat)
       ∧ ((length row < 4)%nat → rd !! "2024" = Some VNone)
       ∧ ((5 ≤ length row)%nat → rd !! "2023" = row !! (length row - 2)%nat)
       ∧ ((length row < 5)%nat → rd !! "2023" = Some VNone)
       ∧ ((6 ≤ length row)%nat → rd !! "2022" = row !! (length row - 3)%nat)
       ∧ ((length row < 6)%nat → rd !! "2022" = Some VNone))
  ∧ (∃ (self : Script.extractor) (h' : heap) (rd : dict),
       Script.extract_all_tables [[[0; 1]%nat]]
         (heap_of [[Some (txt "Item"); Some (txt "2023"); Some (txt "2024")];
                   [Some (txt "Share capital"); Some (txt "(100)"); Some (txt "50")]])
       = inr (self, h')
       ∧ Script.transformed_data today repr_obj
           (Script.mkExtractor
              (Script.convert_numeric_columns (Script.extracted_tables self))
              (Script.table_metadata self))
         = inr [rd]
       ∧ rd !! "dim_1_name" = Some (VStr (txt "Share capital"))
       ∧ rd !! "2022" = Some VNone
       ∧ rd !! "2023" = Some VNone
       ∧ rd !! "2024" = Some VNone).
Proof.
  split.
  - intros pk ti ri meta row.
    destruct (row_record_spec today repr_obj pk ti ri meta row)
      as (rd & Hrd & _ & H4 & H5 & H6 & _).
    exists rd. split; [done|]. split; [by rewrite row_record_same|].
    rewrite H4, H5, H6. clear Hrd H4 H5 H6.
    repeat split; intros Hlen; case_decide; try lia; try done.
    all: match goal with
         | |- Some (default VNone (?l !! ?i)) = _ =>
             destruct (l !! i) eqn:E; [done | apply lookup_ge_None in E; lia]
         end.
  - set (row := [VStr (txt "Share capital"); VFloat (float_of_Z (-100)); VStr (txt "50")]).
    set (meta := Script.mkMetadata 1 0 1 3).
    set (cols := [Some (txt "Item"); Some (txt "2023"); Some (txt "2024")]).
    destruct (row_record_spec today repr_obj 1 0 0 meta row)
      as (rd & Hrd & _ & H4 & H5 & H6 & Hd).
    exists (Script.mkExtractor
              [mkDataFrame cols
                 [[VStr (txt "Share capital"); VStr (txt "(100)"); VStr (txt "50")]]]
              [meta]).
    eexists. exists rd.
    split; [vm_compute; reflexivity|].
    split; [|by rewrite H4, H5, H6, Hd].
    replace (Script.convert_numeric_columns _) with [mkDataFrame cols [row]]
      by (vm_compute; reflexivity).
    unfold Script.transformed_data, Script.transform_table.
    cbn [Script.extracted_tables Script.table_metadata zip zip_with enumerate
         length seq for_in values].
    unfold Script.transform_row. by rewrite Hrd.
Qed.

End PeriodFacts.

Lemma trailing_cells_fill_the_periods_witness :
  ∃ rd : dict,
    Script.row_record (txt "2025-01-01") (λ _, []) 1 0 0 (Script.mkMetadata 8 0 1 5)
      [VStr (txt "a"); VNone; VNone; VFloat (float_of_Z 4); VFloat (float_of_Z 5)]
    = inr rd
    ∧ rd !! "2024" = Some (VFloat (float_of_Z 5))
    ∧ rd !! "2023" = Some (VFloat (float_of_Z 4))
    ∧ rd !! "2022" = Some VNone.
Proof.
  destruct (proj1 (trailing_cells_fill_the_periods (txt "2025-01-01") (λ _, []))
              1%Z 0%nat 0%nat (Script.mkMetadata 8 0 1 5)
              [VStr (txt "a"); VNone; VNone; VFloat (float_of_Z 4); VFloat (float_of_Z 5)])
    as (rd & Hrd & _ & H4 & _ & H5 & _ & _ & H6).
  exists rd. split; [exact Hrd|].
  split; [exact (H4 ltac:(simpl; lia))|].
  split; [exact (H5 ltac:(simpl; lia))|].
  exact (H6 ltac:(simpl; lia)).
Defined.

(** Claim C1 as it is stated fails: the row of three cells of the
    scenario fills none of the three periods. *)
Lemma three_cells_fill_no_period :
  ∃ rd : dict,
    Script.row_record (txt "2025-01-01") (λ _, []) 1 0 0 (Script.mkMetadata 1 0 1 3)
      [VStr (txt "Share capital"); VFloat (float_of_Z (-100)); VStr (txt "50")]
    = inr rd
    ∧ rd !! "2024" = Some VNone
    ∧ rd !! "2023" = Some VNone
    ∧ rd !! "2022" = Some VNone.
Proof.
  destruct (row_record_spec (txt "2025-01-01") (λ _, []) 1 0 0
              (Script.mkMetadata 1 0 1 3)
              [VStr (txt "Share capital"); VFloat (float_of_Z (-100)); VStr (txt "50")])
    as (rd & Hrd & _ & H4 & H5 & H6 & _).
  exists rd. by rewrite H4, H5, H6.
Qed.

(** ** The row classifier *)

Lemma existsb_contains (keywords : list text) (t : text) :
  existsb (λ keyword, contains keyword t) keywords = true
  ↔ ∃ k, k ∈ keywords ∧ substring k t.
Proof.
  rewrite existsb_exists. split.
  - intros (k & Hk & H). exists k. by rewrite list_elem_of_In, <- contains_spec.
  - intros (k & Hk & H). exists k. by rewrite <- list_elem_of_In, contains_spec.
Qed.

(** Every cell of a row is written in the style of the row's role. *)
Lemma row_roles_with_replicate (keywords : list text) (row_idx : nat) (row : list text) :
  PyMuPDF.row_roles_with keywords row_idx row
  = replicate (length row) (PyMuPDF.row_role_with keywords row_idx row).
Proof.
  unfold PyMuPDF.row_roles_with, PyMuPDF.row_role_with, enumerate.
  generalize (bool_decide (row_idx = 1%nat)) (PyMuPDF.is_total_with keywords row).
  intros is_header is_total. generalize 1%nat.
  induction row as [|c row IH]; intros start; simpl; [done|].
  rewrite IH. f_equal. unfold PyMuPDF.cell_role.
  destruct is_header, is_total; by try case_bool_decide.
Qed.

(** Claim C8. The row at position 0 of the table, which the sheet writer
    counts as row 1, has the role Header. A row at another position has
    the role Emphasis exactly when the lower-cased text of its first cell
    contains one of the keywords, and the role Ordinary otherwise, so that
    two such rows with the same first cell have the same role whatever
    their positions and their other cells. Every cell of a row is written
    in the style of the row's role. With the default keywords,
    [_is_total_or_subtotal] of page8_extractor.py decides the same
    containment. *)
Theorem row_role_depends_on_first_cell :
  (∀ keywords row, PyMuPDF.row_role_with keywords (0 + 1) row = Header)
  ∧ (∀ keywords p c rest,
       (PyMuPDF.row_role_with keywords (S p + 1) (c :: rest) = Emphasis
        ↔ ∃ k, k ∈ keywords ∧ substring k (lower c))
       ∧ (PyMuPDF.row_role_with keywords (S p + 1) (c :: rest) = Ordinary
          ↔ ¬ ∃ k, k ∈ keywords ∧ substring k (lower c)))
  ∧ (∀ keywords p1 p2 c rest1 rest2,
       PyMuPDF.row_role_with keywords (S p1 + 1) (c :: rest1)
       = PyMuPDF.row_role_with keywords (S p2 + 1) (c :: rest2))
  ∧ (∀ keywords table_data p row,
       table_data !! p = Some row →
       PyMuPDF.create_excel_with keywords table_data !! p
       = Some (replicate (length row) (PyMuPDF.row_role_with keywords (p + 1) row)))
  ∧ (∀ c, Page8.is_total_or_subtotal c = true
          ↔ ∃ k, k ∈ Page8.keywords ∧ substring k (lower c)).
Proof.
  split; [done|]. split; [|split; [|split]].
  - intros keywords p c rest. unfold PyMuPDF.row_role_with.
    rewrite bool_decide_false by lia. simpl.
    rewrite <- existsb_contains.
    destruct (existsb _ keywords); split; split; try done; by intros H; destruct H.
  - intros keywords p1 p2 c rest1 rest2. unfold PyMuPDF.row_role_with.
    by rewrite !bool_decide_false by lia.
  - intros keywords table_data p row H. unfold PyMuPDF.create_excel_with, enumerate.
    rewrite map_fmap, list_lookup_fmap, lookup_zip_with.
    rewrite lookup_seq_lt by (by eapply lookup_lt_Some). simpl. rewrite H. simpl.
    rewrite row_roles_with_replicate. do 3 f_equal. lia.
  - intros c. unfold Page8.is_total_or_subtotal. case_bool_decide as Hc.
    + subst c. split; [done|]. intros (k & Hk & pre & post & H).
      destruct pre; [|done]. destruct k; [|done].
      by vm_compute in Hk; repeat (apply elem_of_cons in Hk as [Hk|Hk]; [done|]);
        apply elem_of_nil in Hk.
    + apply existsb_contains.
Qed.

Lemma row_role_depends_on_first_cell_witness :
  PyMuPDF.row_role_with PyMuPDF.keywords (1 + 1)
    [txt "Balance as at 31 December 2023"; txt "1,000"] = Emphasis.
Proof.
  apply (proj2 (proj1 (proj1 (proj2 row_role_depends_on_first_cell)
                         PyMuPDF.keywords 0%nat
                         (txt "Balance as at 31 December 2023") [txt "1,000"]))).
  exists (txt "balance as at"). split.
  - apply list_elem_of_here.
  - exists [], (txt " 31 december 2023"). vm_compute. reflexivity.
Defined.

Example balance_row_is_emphasis :
  Page8.is_total_or_subtotal (txt "Balance as at 31 December 2023") = true
  ∧ Page8.is_total_or_subtotal (txt "Share capital") = false.
Proof. by vm_compute. Qed.

(** ** Text that [float] accepts *)

Lemma elem_of_lstrip (c : N) (t : text) :
  c ∈ lstrip t → c ∈ t.
Proof.
  induction t as [|x t IH]; simpl; [done|].
  destruct (is_space x); [|done]. intros H. by apply list_elem_of_further, IH.
Qed.

Lemma elem_of_lstrip_keep (c : N) (t : text) :
  is_space c = false → c ∈ t → c ∈ lstrip t.
Proof.
  intros Hc. induction t as [|x t IH]; simpl; [done|].
  destruct (is_space x) eqn:Hx; [|done].
  intros [->|H]%elem_of_cons; [congruence | by apply IH].
Qed.

Lemma elem_of_rev (c : N) (t : text) : c ∈ rev t ↔ c ∈ t.
Proof. by rewrite !list_elem_of_In, <- in_rev. Qed.

Lemma elem_of_strip (c : N) (t : text) : c ∈ strip t → c ∈ t.
Proof.
  unfold strip, rstrip. rewrite elem_of_rev. intros H%elem_of_lstrip.
  rewrite elem_of_rev in H. by apply elem_of_lstrip.
Qed.

Lemma elem_of_strip_keep (c : N) (t : text) :
  is_space c = false → c ∈ t → c ∈ strip t.
Proof.
  intros Hc H. unfold strip, rstrip. rewrite elem_of_rev.
  apply elem_of_lstrip_keep; [done|]. rewrite elem_of_rev.
  by apply elem_of_lstrip_keep.
Qed.

Lemma elem_of_replace_del (c x : N) (t : text) :
  x ∈ replace_del c t ↔ x ≠ c ∧ x ∈ t.
Proof. unfold replace_del. by rewrite list_elem_of_filter. Qed.


Lemma strip_underscores_chars (prev : N) (t t' : text) :
  strip_underscores prev t = Some t' →
  ∀ c, c ∈ t → c = 95 ∨ c ∈ t'.
Proof.
  revert prev t'. induction t as [|x t IH]; intros prev t' H c Hc.
  { by apply elem_of_nil in Hc. }
  simpl in H. case_bool_decide as Hx.
  - destruct (is_digit prev); [|done].
    apply elem_of_cons in Hc as [->|Hc]; [by left|]. by eapply IH.
  - destruct (_ && _); [done|].
    destruct (strip_underscores x t) as [t1|] eqn:E; [|done].
    injection H as <-.
    apply elem_of_cons in Hc as [->|Hc]; [right; apply list_elem_of_here|].
    destruct (IH _ _ E c Hc) as [?|?]; [by left|]. by right; apply list_elem_of_further.
Qed.

Lemma read_digits_chars (acc : N) (n : nat) (t r : text) (a : N) (n' : nat) :
  read_digits acc n t = (a, n', r) →
  ∀ c, c ∈ t → is_digit c = true ∨ c ∈ r.
Proof.
  revert acc n. induction t as [|x t IH]; intros acc n H c Hc.
  { by apply elem_of_nil in Hc. }
  simpl in H. unfold digit_of in H. destruct (_ && _) eqn:Hx.
  - apply elem_of_cons in Hc as [->|Hc]; [by left|]. by eapply IH.
  - injection H as _ _ <-. by right.
Qed.

Lemma read_sign_cases (t : text) :
  (∃ t', t = 43 :: t' ∧ read_sign t = (false, t'))
  ∨ (∃ t', t = 45 :: t' ∧ read_sign t = (true, t'))
  ∨ read_sign t = (false, t).
Proof.
  destruct t as [|[|p] t]; [by right; right..|].
  do 6 (try match goal with p : positive |- _ => destruct p end);
    simpl; eauto.
Qed.

Lemma read_sign_chars (t : text) :
  ∀ c, c ∈ t → c ∈ [43; 45] ∨ c ∈ (read_sign t).2.
Proof.
  intros c Hc.
  destruct (read_sign_cases t) as [(t' & -> & ->) | [(t' & -> & ->) | ->]];
    simpl; [| |by right].
  - apply elem_of_cons in Hc as [->|Hc]; [left; set_solver | by right].
  - apply elem_of_cons in Hc as [->|Hc]; [left; set_solver | by right].
Qed.

Lemma read_exponent_chars (t : text) (x : Z) :
  read_exponent t = Some x →
  ∀ c, c ∈ t → is_digit c = true ∨ c ∈ [101; 69; 43; 45].
Proof.
  intros H c Hc. destruct t as [|c0 t]; [by apply elem_of_nil in Hc|].
  unfold read_exponent in H. destruct (_ || _) eqn:He; [|done].
  apply elem_of_cons in Hc as [->|Hc].
  { right. apply orb_true_iff in He as [He|He]; apply bool_decide_eq_true in He;
      subst; set_solver. }
  destruct (read_sign_chars t c Hc) as [Hs|Hs]; [right; set_solver|].
  destruct (read_sign t) as [neg t2]. simpl in Hs.
  destruct (read_digits 0 0 t2) as [[v n] r] eqn:E.
  destruct n; [done|]. destruct r; [|done].
  destruct (read_digits_chars _ _ _ _ _ _ E c Hs) as [?|Hr]; [by left|].
  by apply elem_of_nil in Hr.
Qed.

Lemma point_cases {A} (r1 : text) (f : text → A) (b : A) :
  (∃ r, r1 = 46 :: r ∧ match r1 with 46 :: r => f r | _ => b end = f r)
  ∨ match r1 with 46 :: r => f r | _ => b end = b.
Proof.
  destruct r1 as [|[|p] r]; [by right..|].
  do 6 (try match goal with p : positive |- _ => destruct p end);
    simpl; eauto.
Qed.

Lemma read_decimal_chars (t : text) (m : N) (e : Z) :
  read_decimal t = Some (m, e) →
  ∀ c, c ∈ t → is_digit c = true ∨ c ∈ [46; 101; 69; 43; 45].
Proof.
  intros H c Hc. unfold read_decimal in H.
  destruct (read_digits 0 0 t) as [[ip ni] r1] eqn:E1.
  destruct (read_digits_chars _ _ _ _ _ _ E1 c Hc) as [?|Hr1]; [by left|].
  destruct (point_cases r1 (λ r, read_digits ip 0 r) (ip, O, r1))
    as [(r & Er & Hp) | Hp]; cbn beta in Hp; rewrite Hp in H; clear Hp;
    [subst r1|].
  - destruct (read_digits ip 0 r) as [[m' nf] r2] eqn:E2.
    case_bool_decide; [done|].
    destruct (read_exponent r2) as [x|] eqn:E3; [|done].
    apply elem_of_cons in Hr1 as [->|Hr]; [right; set_solver|].
    destruct (read_digits_chars _ _ _ _ _ _ E2 c Hr) as [?|Hr2]; [by left|].
    destruct (read_exponent_chars _ _ E3 c Hr2) as [?|?]; [by left | right; set_solver].
  - case_bool_decide; [done|].
    destruct (read_exponent r1) as [x|] eqn:E3; [|done].
    destruct (read_exponent_chars _ _ E3 c Hr1) as [?|?]; [by left | right; set_solver].
Qed.

Lemma elem_of_lower (c : N) (t : text) : c ∈ t → lower_char c ∈ lower t.
Proof. intros H. unfold lower. rewrite map_fmap. by apply list_elem_of_fmap_2. Qed.

Lemma elem_of_lstrip_ascii_keep (c : N) (t : text) :
  is_ascii_space c = false → c ∈ t → c ∈ lstrip_ascii t.
Proof.
  intros Hc. induction t as [|x t IH]; simpl; [done|].
  destruct (is_ascii_space x) eqn:Hx; [|done].
  intros [->|H]%elem_of_cons; [congruence | by apply IH].
Qed.

Lemma elem_of_strip_ascii_keep (c : N) (t : text) :
  is_ascii_space c = false → c ∈ t → c ∈ strip_ascii t.
Proof.
  intros Hc H. unfold strip_ascii. rewrite elem_of_rev.
  apply elem_of_lstrip_ascii_keep; [done|]. rewrite elem_of_rev.
  by apply elem_of_lstrip_ascii_keep.
Qed.

Lemma is_ascii_space_is_space (c : N) : is_ascii_space c = true → is_space c = true.
Proof.
  unfold is_ascii_space, is_space. intros [H|H]%orb_true_iff.
  - by rewrite H.
  - apply N.eqb_eq in H as ->. done.
Qed.

(** A character of a text that [float] brings to ASCII is white space
    or a digit outside ASCII, or stands for itself. *)
Lemma transform_chars (s a : text) :
  transform s = Some a →
  ∀ c, c ∈ s →
    is_space c = true ∨ is_Some (decimal_value c) ∨ ((c <? 127) = true ∧ c ∈ a).
Proof.
  unfold transform. rewrite mapM_Some. intros H c Hc.
  apply list_elem_of_lookup in Hc as [i Hi].
  destruct (Forall2_lookup_l _ _ _ _ _ H Hi) as (c' & Hi' & Hc').
  unfold transform_char in Hc'. destruct (c <? 127) eqn:E.
  - injection Hc' as <-. right; right. split; [done|]. by eapply list_elem_of_lookup_2.
  - destruct (is_space c); [by left|]. right; left.
    by destruct (decimal_value c).
Qed.

(** [float] raises on a text that has a character outside its alphabet. *)
Lemma py_float_chars (s : text) (f : float) :
  py_float s = inr f → ∀ c, c ∈ s → float_char c = true.
Proof.
  intros H c Hc. unfold py_float in H.
  destruct (transform s) as [a|] eqn:Ea; [|done]. cbn [mbind option_bind] in H.
  destruct (strip_underscores 0 a) as [s'|] eqn:E; [|done].
  unfold float_char.
  destruct (transform_chars _ _ Ea c Hc) as [Hsp | [Hd | [_ Ha]]].
  { rewrite Hsp. by rewrite !orb_true_r. }
  { rewrite (bool_decide_true (is_Some _)) by done. by rewrite !orb_true_r. }
  destruct (strip_underscores_chars _ _ _ E c Ha) as [->|Hs]; [done|].
  destruct (is_space c) eqn:Hsp; [by rewrite !orb_true_r|].
  assert (Hasp : is_ascii_space c = false).
  { destruct (is_ascii_space c) eqn:E1; [|done].
    apply is_ascii_space_is_space in E1. congruence. }
  apply (elem_of_strip_ascii_keep _ _ Hasp) in Hs.
  destruct (read_sign_chars _ c Hs) as [Hsg|Hb].
  { rewrite (bool_decide_true (c ∈ [43; 45; 46; 69; 101; 95])) by set_solver.
    by rewrite !orb_true_r. }
  destruct (read_sign (strip_ascii s')) as [neg body]. simpl in Hb.
  assert (Hlow : ∀ word, lower body = word → word ⊆ txt "infinity" ++ txt "nan" →
                 bool_decide (lower_char c ∈ txt "infinity" ++ txt "nan") = true).
  { intros word Hw Hsub. apply bool_decide_eq_true, Hsub. rewrite <- Hw.
    by apply elem_of_lower. }
  destruct (bool_decide (lower body = txt "inf")) eqn:H1.
  { apply bool_decide_eq_true in H1. rewrite (Hlow _ H1); [by rewrite !orb_true_r|].
    vm_compute. set_solver. }
  destruct (bool_decide (lower body = txt "infinity")) eqn:H2.
  { apply bool_decide_eq_true in H2. rewrite (Hlow _ H2); [by rewrite !orb_true_r|].
    vm_compute. set_solver. }
  destruct (bool_decide (lower body = txt "nan")) eqn:H3.
  { apply bool_decide_eq_true in H3. rewrite (Hlow _ H3); [by rewrite !orb_true_r|].
    vm_compute. set_solver. }
  simpl in H. destruct (read_decimal body) as [[m e]|] eqn:E4; [|done].
  destruct (read_decimal_chars _ _ _ E4 c Hb) as [->|Hd]; [done|].
  rewrite (bool_decide_true (c ∈ [43; 45; 46; 69; 101; 95])) by set_solver.
  by rewrite !orb_true_r.
Qed.

(** A text that starts with one character and ends with another. *)
Lemma enclosed_inv (a b : N) (t : text) :
  a ≠ b → startswith a t && endswith b t = true →
  ∃ inner, t = a :: inner ++ [b].
Proof.
  intros Hab [H1 H2]%andb_true_iff. destruct t as [|x t]; [done|].
  apply bool_decide_eq_true in H1 as ->.
  destruct (rev t) as [|y u] eqn:E.
  - apply (f_equal (@rev N)) in E. rewrite rev_involutive in E. subst t.
    unfold endswith in H2. simpl in H2. by apply bool_decide_eq_true in H2.
  - unfold endswith in H2. simpl in H2. rewrite E in H2. simpl in H2.
    apply bool_decide_eq_true in H2 as ->.
    exists (rev u). apply (f_equal (@rev N)) in E. rewrite rev_involutive in E.
    by rewrite E.
Qed.

Lemma slice_1_m1_enclosed (a b : N) (inner : text) :
  slice_1_m1 (a :: inner ++ [b]) = inner.
Proof.
  unfold slice_1_m1. simpl. rewrite length_app. simpl.
  replace (length inner + 1 - 1)%nat with (length inner) by lia.
  rewrite drop_0. apply take_app_length.
Qed.

(** ** The sheet writer of extract_page8_changes_equity.py *)

(** A cell in parentheses with a thousands separator is written as the
    text it is, and gets no number format: the separator is removed on the
    plain path only, and [float] raises on it. *)
Theorem parenthesised_separator_stays_text (value : text) :
  startswith c_lparen value && endswith c_rparen value = true →
  c_comma ∈ value →
  ChangesEquity.numeric_cell value = (VStr value, false).
Proof.
  intros Hp Hc. unfold ChangesEquity.numeric_cell. rewrite Hp.
  destruct (enclosed_inv c_lparen c_rparen value) as [inner ->]; [done..|].
  rewrite slice_1_m1_enclosed.
  destruct (py_float (replace_del c_space inner)) as [e|f] eqn:E; [done|].
  assert (Hin : c_comma ∈ replace_del c_space inner).
  { apply elem_of_replace_del. split; [done|].
    apply elem_of_cons in Hc as [Hc|Hc]; [done|].
    apply elem_of_app in Hc as [Hc|Hc]; [done|].
    by apply list_elem_of_singleton in Hc. }
  by pose proof (py_float_chars _ _ E c_comma Hin).
Qed.

Lemma parenthesised_separator_stays_text_witness :
  ChangesEquity.numeric_cell (txt "(1,234)") = (VStr (txt "(1,234)"), false).
Proof.
  apply (parenthesised_separator_stays_text (txt "(1,234)")).
  - vm_compute. reflexivity.
  - apply (bool_decide_unpack _). vm_compute. exact I.
Defined.

(** ** What the parsers take for a number *)


Lemma replace_del_chars (d : N) (t : text) (c : N) :
  c ∈ t → c = d ∨ c ∈ replace_del d t.
Proof.
  intros H. destruct (decide (c = d)); [by left|]. right.
  by apply elem_of_replace_del.
Qed.

Lemma strip_chars (t : text) (c : N) :
  c ∈ t → is_space c = true ∨ c ∈ strip t.
Proof.
  intros H. destruct (is_space c) eqn:E; [by left|]. right.
  by apply elem_of_strip_keep.
Qed.

Lemma amount_char_float (c : N) : float_char c = true → amount_char c = true.
Proof. unfold amount_char. by intros ->. Qed.

Lemma amount_char_space (c : N) : is_space c = true → amount_char c = true.
Proof. unfold amount_char, float_char. intros ->. by rewrite orb_true_r. Qed.

(** A text whose characters, the separators [dels] apart, [float]
    accepts. *)
Lemma separated_amount (dels : list N) (t u : text) (f : float) :
  py_float u = inr f →
  (∀ c, c ∈ t → c ∈ dels ∨ c ∈ u) →
  Forall (λ c, amount_char c = true) dels →
  ∀ c, c ∈ t → amount_char c = true.
Proof.
  intros Hf Hsub Hdels c Hc. destruct (Hsub c Hc) as [H|H].
  - by eapply Forall_forall in Hdels.
  - apply amount_char_float. by eapply py_float_chars.
Qed.

Lemma enclosed_amount (dels : list N) (inner u : text) (f : float) :
  py_float u = inr f →
  (∀ c, c ∈ inner → c ∈ dels ∨ c ∈ u) →
  Forall (λ c, amount_char c = true) dels →
  ∀ c, c ∈ c_lparen :: inner ++ [c_rparen] → amount_char c = true.
Proof.
  intros Hf Hsub Hdels c Hc.
  apply elem_of_cons in Hc as [->|Hc]; [done|].
  apply elem_of_app in Hc as [Hc|Hc].
  - by eapply separated_amount.
  - by apply list_elem_of_singleton in Hc as ->.
Qed.

(** No parser of the repository takes for a number a text with a
    character that is not one of an amount. The digits of every script
    are characters of an amount; a letter other than those of inf,
    infinity and nan and the exponent mark, a currency sign and a per
    cent sign are not. *)
Theorem numbers_come_from_amounts (value : text) (f : float) :
  (Script.convert_to_numeric (VStr value) = VFloat f
   ∨ Page8.try_parse_number value = VFloat f
   ∨ PyMuPDF.parse_number value = VFloat f
   ∨ (∃ b, ChangesEquity.numeric_cell value = (VFloat f, b))) →
  ∀ c, c ∈ value → amount_char c = true.
Proof.
  intros H c Hc.
  assert (Hdels : Forall (λ c, amount_char c = true)
                    [c_comma; c_space; c_nbsp; c_newline; c_return]).
  { by repeat constructor. }
  destruct H as [H | [H | [H | [b H]]]].
  - unfold Script.convert_to_numeric in H.
    destruct (strip_chars value c Hc) as [Hs|Hs]; [by apply amount_char_space|].
    destruct (_ || _); [done|]. destruct (_ || _); [done|].
    destruct (startswith c_lparen (strip value) && endswith c_rparen (strip value))
      eqn:Hp.
    + destruct (enclosed_inv c_lparen c_rparen (strip value)) as [inner E]; [done..|].
      rewrite E, slice_1_m1_enclosed in H. rewrite E in Hs.
      destruct (py_float _) as [e|num] eqn:Ef; [done|].
      eapply (enclosed_amount _ inner); [exact Ef| |exact Hdels|exact Hs].
      intros x Hx.
      destruct (replace_del_chars c_comma _ x Hx) as [->|H1]; [left; set_solver|].
      destruct (replace_del_chars c_space _ x H1) as [->|H2]; [left; set_solver|].
      destruct (replace_del_chars c_nbsp _ x H2) as [->|H3]; [left; set_solver|].
      by right.
    + destruct (py_float _) as [e|num] eqn:Ef; [done|]. done.
  - unfold Page8.try_parse_number in H.
    case_bool_decide; [done|].
    destruct (strip_chars value c Hc) as [Hs|Hs]; [by apply amount_char_space|].
    destruct (_ || _); [done|].
    destruct (startswith c_lparen (strip value) && endswith c_rparen (strip value))
      eqn:Hp.
    + destruct (enclosed_inv c_lparen c_rparen (strip value)) as [inner E]; [done..|].
      rewrite E, slice_1_m1_enclosed in H. rewrite E in Hs.
      destruct (py_float _) as [e|num] eqn:Ef; [done|].
      eapply (enclosed_amount _ inner); [exact Ef| |exact Hdels|exact Hs].
      intros x Hx.
      destruct (replace_del_chars c_comma _ x Hx) as [->|H1]; [left; set_solver|].
      destruct (replace_del_chars c_space _ x H1) as [->|H2]; [left; set_solver|].
      by right.
    + destruct (py_float _) as [e|num] eqn:Ef; [done|].
      eapply (separated_amount _ (strip value)); [exact Ef| |exact Hdels|exact Hs].
      intros x Hx.
      destruct (replace_del_chars c_comma _ x Hx) as [->|H1]; [left; set_solver|].
      destruct (replace_del_chars c_space _ x H1) as [->|H2]; [left; set_solver|].
      by right.
  - unfold PyMuPDF.parse_number in H.
    destruct (_ || _); [done|].
    destruct (strip_chars value c Hc) as [Hs|Hs]; [by apply amount_char_space|].
    destruct (replace_del_chars c_newline _ c Hs) as [->|Hs1]; [done|].
    destruct (replace_del_chars c_return _ c Hs1) as [->|Hs2]; [done|].
    set (text' := replace_del c_return (replace_del c_newline (strip value))) in *.
    destruct (startswith c_lparen text' && endswith c_rparen text') eqn:Hp.
    + destruct (enclosed_inv c_lparen c_rparen text') as [inner E]; [done..|].
      rewrite E, slice_1_m1_enclosed in H. rewrite E in Hs2.
      destruct (py_float _) as [e|num] eqn:Ef; [done|].
      eapply (enclosed_amount _ inner); [exact Ef| |exact Hdels|exact Hs2].
      intros x Hx.
      destruct (replace_del_chars c_comma _ x Hx) as [->|H1]; [left; set_solver|].
      destruct (replace_del_chars c_space _ x H1) as [->|H2]; [left; set_solver|].
      by right.
    + destruct (py_float _) as [e|num] eqn:Ef; [done|].
      eapply (separated_amount _ text'); [exact Ef| |exact Hdels|exact Hs2].
      intros x Hx.
      destruct (replace_del_chars c_comma _ x Hx) as [->|H1]; [left; set_solver|].
      destruct (replace_del_chars c_space _ x H1) as [->|H2]; [left; set_solver|].
      by right.
  - unfold ChangesEquity.numeric_cell in H.
    destruct (startswith c_lparen value && endswith c_rparen value) eqn:Hp.
    + destruct (enclosed_inv c_lparen c_rparen value) as [inner E]; [done..|].
      rewrite E, slice_1_m1_enclosed in H. rewrite E in Hc.
      destruct (py_float _) as [e|num] eqn:Ef; [done|].
      eapply (enclosed_amount _ inner); [exact Ef| |exact Hdels|exact Hc].
      intros x Hx.
      destruct (replace_del_chars c_space _ x Hx) as [->|H2]; [left; set_solver|].
      by right.
    + destruct (py_float _) as [e|num] eqn:Ef; [done|].
      eapply (separated_amount _ value); [exact Ef| |exact Hdels|exact Hc].
      intros x Hx.
      destruct (replace_del_chars c_comma _ x Hx) as [->|H1]; [left; set_solver|].
      destruct (replace_del_chars c_space _ x H1) as [->|H2]; [left; set_solver|].
      by right.
Qed.

Lemma numbers_come_from_amounts_witness :
  Forall (λ c, amount_char c = true) (txt " (1,234.5) ").
Proof.
  apply Forall_forall.
  apply (numbers_come_from_amounts (txt " (1,234.5) ")
           (float_neg (float_of_decimal false 12345 (-1)))).
  right. left. vm_compute. reflexivity.
Defined.

(** ** Blank cells *)

(** [_try_parse_number] of page8_extractor.py gives [None] for a cell
    that is blank or a dash once stripped, but returns the empty string as
    it is; [_parse_number] of pymupdf_extractor.py gives [None] for the
    empty string and for a dash exactly, and the empty text for a cell of
    white space. *)
Theorem blank_cells_of_the_parsers :
  (∀ v, Page8.try_parse_number v = VNone
        ↔ v ≠ [] ∧ (strip v = [] ∨ strip v = txt "-"))
  ∧ Page8.try_parse_number [] = VStr []
  ∧ (∀ v, PyMuPDF.parse_number v = VNone ↔ v = [] ∨ v = txt "-")
  ∧ (∀ v, v ≠ [] → strip v = [] → PyMuPDF.parse_number v = VStr []).
Proof.
  split; [|split; [done|split]].
  - intros v. unfold Page8.try_parse_number. case_bool_decide as Hv.
    { split; [done | by intros [? _]]. }
    destruct (bool_decide (strip v = [])) eqn:H1.
    { apply bool_decide_eq_true in H1. simpl. split; auto. }
    destruct (bool_decide (strip v = txt "-")) eqn:H2.
    { apply bool_decide_eq_true in H2. simpl. split; auto. }
    apply bool_decide_eq_false in H1, H2. simpl.
    split; [|by intros [_ [?|?]]].
    destruct (_ && _); destruct (py_float _); done.
  - intros v. unfold PyMuPDF.parse_number.
    destruct (bool_decide (v = [])) eqn:H1.
    { apply bool_decide_eq_true in H1. simpl. split; auto. }
    destruct (bool_decide (v = txt "-")) eqn:H2.
    { apply bool_decide_eq_true in H2. simpl. split; auto. }
    apply bool_decide_eq_false in H1, H2. simpl.
    split; [|by intros [?|?]].
    destruct (_ && _); destruct (py_float _); done.
  - intros v Hv Hs. unfold PyMuPDF.parse_number.
    rewrite (bool_decide_false (v = [])) by done.
    rewrite (bool_decide_false (v = txt "-")).
    2: { intros ->. by vm_compute in Hs. }
    by rewrite Hs.
Qed.

(** ** The tables of page 8 *)

Lemma strip_nil : strip [] = [].
Proof. reflexivity. Qed.

Lemma List_filter_sublist {A} (f : A → bool) (l : list A) :
  List.filter f l `sublist_of` l.
Proof.
  induction l as [|x l IH]; simpl; [done|].
  destruct (f x); [by apply sublist_skip | by apply sublist_cons].
Qed.

Lemma pymupdf_clean_cell_stripped (c : cell) :
  (c_newline ∉ PyMuPDF.clean_cell c)
  ∧ strip (PyMuPDF.clean_cell c) = PyMuPDF.clean_cell c.
Proof.
  destruct c as [[|x t]|]; cbn [PyMuPDF.clean_cell];
    try (split; [apply not_elem_of_nil | done]).
  split; [|apply strip_idemp].
  intros H%elem_of_strip. unfold replace_char in H.
  rewrite map_fmap in H. apply list_elem_of_fmap in H as (y & Hy & _).
  by case_bool_decide; subst.
Qed.

(** [extract_page_8] of pymupdf_extractor.py reports success on every
    table that has a row, even when it keeps none. The rows it keeps are
    the cleaned rows with a cell that is not empty, in their order, each
    with the number of cells it had; a cell it keeps has no line break and
    no white space at its ends. *)
Theorem pymupdf_rows_are_cleaned (table : list (list cell)) :
  let out := (PyMuPDF.extract_page_8 table).2 in
  (PyMuPDF.extract_page_8 table).1 = negb (bool_decide (table = []))
  ∧ out `sublist_of` map (map PyMuPDF.clean_cell) table
  ∧ (∀ row, row ∈ out
            ↔ (∃ raw, raw ∈ table ∧ row = map PyMuPDF.clean_cell raw)
              ∧ ∃ c, c ∈ row ∧ c ≠ [])
  ∧ Forall (Forall (λ c, (c_newline ∉ c) ∧ strip c = c)) out.
Proof.
  assert (Hout : (PyMuPDF.extract_page_8 table).2
                 = List.filter (existsb (λ cell : text, negb (bool_decide (cell = []))))
                     (map (map PyMuPDF.clean_cell) table)).
  { by destruct table. }
  intros out. subst out. rewrite Hout. clear Hout.
  split; [by destruct table|]. split; [|split].
  - apply List_filter_sublist.
  - intros row. rewrite list_elem_of_In, filter_In, <- list_elem_of_In.
    rewrite map_fmap, list_elem_of_fmap, existsb_exists.
    split; intros [(raw & H1 & H2) H]; (split; [by exists raw|]).
    + destruct H as (c & Hc & Hne). exists c. rewrite list_elem_of_In.
      split; [done|]. by apply negb_true_iff, bool_decide_eq_false in Hne.
    + destruct H as (c & Hc & Hne). exists c. rewrite <- list_elem_of_In.
      split; [done|]. by apply negb_true_iff, bool_decide_eq_false.
  - apply Forall_forall. intros row Hrow.
    rewrite list_elem_of_In, filter_In, <- list_elem_of_In in Hrow.
    destruct Hrow as [Hrow _].
    rewrite map_fmap in Hrow. apply list_elem_of_fmap in Hrow as (raw & -> & _).
    rewrite map_fmap. apply Forall_fmap, Forall_forall. intros c _.
    apply pymupdf_clean_cell_stripped.
Qed.

(** ** extract_page8_changes_equity.py *)

Lemma py_index_inv {A} (l : list A) (i : nat) :
  py_index l (Z.of_nat i)
  = match l !! i with Some x => inr x | None => inl IndexError end.
Proof.
  unfold py_index. rewrite !(proj2 (Z.ltb_ge (Z.of_nat i) 0)) by lia.
  by rewrite Nat2Z.id.
Qed.

Lemma page8_clean_cell_stripped (c : cell) :
  strip (Page8.clean_cell c) = Page8.clean_cell c.
Proof. destruct c; simpl; [apply strip_idemp | done]. Qed.

Lemma changes_equity_clean_row (headers row : list cell) :
  length (ChangesEquity.clean_row headers row) = length headers
  ∧ Forall (λ c, strip c = c) (ChangesEquity.clean_row headers row).
Proof.
  unfold ChangesEquity.clean_row. rewrite page8_pad_cleaned_filled.
  destruct (rectangular_take_filled (length headers) ([] : text)
              (map Page8.clean_cell row)) as (Hlen & _ & _).
  split; [done|].
  apply Forall_take. unfold filled. apply Forall_app. split.
  - rewrite map_fmap. apply Forall_fmap, Forall_forall. intros c _.
    apply page8_clean_cell_stripped.
  - by apply Forall_replicate.
Qed.

(** The loop over the tables of the page: the rows of all the tables are
    gathered, the header is the one of the last table that has a row. *)
Lemma changes_equity_tables (tables : list (list (list cell))) (start : nat)
    (self : ChangesEquity.extractor) :
  for_in (enumerate start tables) ChangesEquity.extract_table self
  = inr (ChangesEquity.mkExtractor
           (default (ChangesEquity.headers self) (last (omap head tables)))
           (ChangesEquity.extracted_data self
            ++ tables ≫= (λ t, match t with
                               | [] => []
                               | h :: data_rows =>
                                   map (ChangesEquity.clean_row h) data_rows
                               end))).
Proof.
  revert start self. induction tables as [|t tables IH]; intros start [hs rows].
  - simpl. by rewrite app_nil_r.
  - rewrite enumerate_cons. cbn [for_in]. unfold ChangesEquity.extract_table at 2.
    cbn [snd]. destruct t as [|h data_rows];
      cbn [mbind mret result_bind result_ret]; rewrite IH.
    + done.
    + cbn [ChangesEquity.headers ChangesEquity.extracted_data]. f_equal. f_equal.
      * change (omap head ((h :: data_rows) :: tables)) with (h :: omap head tables).
        rewrite last_cons. by destruct (last (omap head tables)).
      * by rewrite bind_cons, app_assoc.
Qed.

(** [extract_page_8] of extract_page8_changes_equity.py raises
    [IndexError] on a document of fewer than eight pages, and raises
    nothing on a longer one. *)
Theorem short_document_raises (pages : list (list (list (list cell)))) :
  (ChangesEquity.extract_page_8 pages = inl IndexError ↔ (length pages < 8)%nat)
  ∧ (∀ e, ChangesEquity.extract_page_8 pages = inl e → e = IndexError).
Proof.
  unfold ChangesEquity.extract_page_8.
  change 7%Z with (Z.of_nat 7). rewrite py_index_inv.
  destruct (pages !! 7%nat) as [tables|] eqn:E; cbn [mbind mret result_bind result_ret].
  - apply lookup_lt_Some in E.
    destruct tables as [|t tables]; [split; [split; [done|lia]|done]|].
    rewrite changes_equity_tables. cbn [mbind mret result_bind result_ret].
    split; [split; [done|lia]|done].
  - apply lookup_ge_None in E. split; [split; [lia|done]|]. by intros e [= <-].
Qed.

(** On a document that has an eighth page, the flag that is returned
    tells whether some table of the page has a row below its first one.
    Every row that is stored has the width of the first row of a table of
    the page, its own, and cells without white space at their ends; the
    header that is stored is the first row of the last table that is not
    empty, whatever table the rows come from. *)
Theorem changes_equity_rows (pages : list (list (list (list cell))))
    (tables : list (list (list cell))) :
  pages !! 7%nat = Some tables →
  ∃ (flag : bool) (self : ChangesEquity.extractor),
    ChangesEquity.extract_page_8 pages = inr (flag, self)
    ∧ (flag = true ↔ ∃ t, t ∈ tables ∧ (2 ≤ length t)%nat)
    ∧ ChangesEquity.headers self = default [] (last (omap head tables))
    ∧ ∀ row, row ∈ ChangesEquity.extracted_data self →
        (∃ h data_rows, h :: data_rows ∈ tables ∧ length row = length h)
        ∧ Forall (λ c, strip c = c) row.
Proof.
  intros E. unfold ChangesEquity.extract_page_8.
  change 7%Z with (Z.of_nat 7). rewrite py_index_inv, E.
  cbn [mbind mret result_bind result_ret].
  set (gathered := tables ≫= (λ t, match t with
                                   | [] => []
                                   | h :: data_rows =>
                                       map (ChangesEquity.clean_row h) data_rows
                                   end)).
  assert (Hrows : ∀ row, row ∈ gathered →
            (∃ h data_rows, h :: data_rows ∈ tables ∧ length row = length h)
            ∧ Forall (λ c, strip c = c) row).
  { intros row Hrow. apply list_elem_of_bind in Hrow as ([|h data_rows] & Hrow & Ht).
    { by apply elem_of_nil in Hrow. }
    rewrite map_fmap in Hrow. apply list_elem_of_fmap in Hrow as (raw & -> & _).
    destruct (changes_equity_clean_row h raw) as [Hlen Hs].
    split; [by exists h, data_rows | done]. }
  assert (Hflag : gathered ≠ [] ↔ ∃ t, t ∈ tables ∧ (2 ≤ length t)%nat).
  { split.
    - intros Hne. destruct gathered as [|row g] eqn:Eg; [done|].
      assert (Hrow : row ∈ gathered) by (rewrite Eg; apply list_elem_of_here).
      apply list_elem_of_bind in Hrow as ([|h data_rows] & Hrow & Ht).
      { by apply elem_of_nil in Hrow. }
      exists (h :: data_rows). split; [done|].
      destruct data_rows; [by apply elem_of_nil in Hrow | simpl; lia].
    - intros (t & Ht & Hlen) Hnil.
      destruct t as [|h [|raw data_rows]]; simpl in Hlen; try lia.
      assert (Hin : ChangesEquity.clean_row h raw ∈ gathered).
      { apply list_elem_of_bind. exists (h :: raw :: data_rows). split; [|done].
        apply list_elem_of_here. }
      rewrite Hnil in Hin. by apply elem_of_nil in Hin. }
  destruct tables as [|t tables].
  { exists false, (ChangesEquity.mkExtractor [] []). split; [done|].
    split; [|split; [done|]].
    - split; [done|]. intros (t & Ht & _). by apply elem_of_nil in Ht.
    - intros row Hrow. by apply elem_of_nil in Hrow. }
  rewrite changes_equity_tables. cbn [mbind mret result_bind result_ret].
  eexists _, _. split; [reflexivity|].
  cbn [ChangesEquity.headers ChangesEquity.extracted_data app].
  split; [|split; [done|exact Hrows]].
  rewrite <- Hflag. fold gathered. rewrite negb_true_iff, bool_decide_eq_false. done.
Qed.

Lemma changes_equity_rows_witness :
  ∃ (flag : bool) (self : ChangesEquity.extractor),
    ChangesEquity.extract_page_8
      (replicate 7 [] ++ [[[[Some (txt "Item"); Some (txt "Equity")];
                            [Some (txt " Share capital "); None; Some (txt "x")]];
                           [[Some (txt "Note")]; [None; Some (txt "1")]]]])
    = inr (flag, self)
    ∧ (flag = true
       ↔ ∃ t, t ∈ [[[Some (txt "Item"); Some (txt "Equity")];
                    [Some (txt " Share capital "); None; Some (txt "x")]];
                   [[Some (txt "Note")]; [None; Some (txt "1")]]]
              ∧ (2 ≤ length t)%nat)
    ∧ ChangesEquity.headers self
      = default [] (last (omap head
                            [[[Some (txt "Item"); Some (txt "Equity")];
                              [Some (txt " Share capital "); None; Some (txt "x")]];
                             [[Some (txt "Note")]; [None; Some (txt "1")]]]))
    ∧ ∀ row, row ∈ ChangesEquity.extracted_data self →
        (∃ h data_rows,
           h :: data_rows ∈ [[[Some (txt "Item"); Some (txt "Equity")];
                              [Some (txt " Share capital "); None; Some (txt "x")]];
                             [[Some (txt "Note")]; [None; Some (txt "1")]]]
           ∧ length row = length h)
        ∧ Forall (λ c, strip c = c) row.
Proof.
  apply (changes_equity_rows
           (replicate 7 [] ++ [[[[Some (txt "Item"); Some (txt "Equity")];
                                 [Some (txt " Share capital "); None; Some (txt "x")]];
                                [[Some (txt "Note")]; [None; Some (txt "1")]]]])).
  reflexivity.
Defined.

(** ** The extraction loop *)

(** A loop whose body keeps an invariant and raises nothing ends, raises
    nothing and keeps the invariant. *)
Lemma for_in_invariant {A S} (I : S → Prop) (P : A → Prop)
    (body : S → A → result S) (xs : list A) (s : S) :
  I s → Forall P xs →
  (∀ s x, I s → P x → ∃ s', body s x = inr s' ∧ I s') →
  ∃ s', for_in xs body s = inr s' ∧ I s'.
Proof.
  intros Hs Hxs Hbody. revert s Hs.
  induction Hxs as [|x xs Hx Hxs IH]; intros s Hs; simpl; [eauto|].
  destruct (Hbody s x Hs Hx) as (s1 & -> & Hs1). simpl. by apply IH.
Qed.

Lemma Forall_enumerate {A} (start : nat) (l : list A) :
  Forall (λ it : nat * A, (start ≤ it.1)%nat ∧ l !! (it.1 - start)%nat = Some it.2)
    (enumerate start l).
Proof.
  revert start. induction l as [|x l IH]; intros start; [constructor|].
  rewrite enumerate_cons. constructor.
  - simpl. by rewrite Nat.sub_diag.
  - eapply Forall_impl; [apply (IH (S start))|].
    intros [i y] [Hi Hy]. simpl in *. split; [lia|].
    by replace (i - start)%nat with (S (i - S start)) by lia.
Qed.


Lemma only_padded_refl (h : heap) : only_padded h h.
Proof. intros a. exists 0%nat. simpl. by rewrite app_nil_r. Qed.

Lemma only_padded_trans (h1 h2 h3 : heap) :
  only_padded h1 h2 → only_padded h2 h3 → only_padded h1 h3.
Proof.
  intros H12 H23 a. destruct (H12 a) as [k1 E1], (H23 a) as [k2 E2].
  exists (k1 + k2)%nat. rewrite E2, E1, <- app_assoc. f_equal.
  by rewrite replicate_add.
Qed.

Lemma convert_table_to_dataframe_only_padded (t : table) (h : heap) :
  only_padded h (Script.convert_table_to_dataframe t h).2.
Proof.
  destruct (Script.convert_table_to_dataframe t h) as [[df|] h'] eqn:E; simpl.
  - destruct t as [|hd rest].
    { unfold Script.convert_table_to_dataframe in E. simpl in E. done. }
    apply convert_table_to_dataframe_Some in E as (headers & padded & E & _).
    apply rectangularise_Some in E as (_ & _ & E).
    intros a. rewrite E. case_decide.
    + by eexists.
    + exists 0%nat. simpl. by rewrite app_nil_r.
  - unfold Script.convert_table_to_dataframe in E.
    destruct (Script.rectangularise t h) as [[[headers padded]|] h2] eqn:E2; [done|].
    injection E as <-. apply rectangularise_None in E2 as ->.
    apply only_padded_refl.
Qed.

(** The loop over the pages keeps the invariant. *)
Lemma extract_all_tables_spec (pages : list (list table)) (h : heap) :
  ∃ (self : Script.extractor) (h' : heap),
    Script.extract_all_tables pages h = inr (self, h')
    ∧ Forall2 (stored pages) (Script.extracted_tables self) (Script.table_metadata self)
    ∧ only_padded h h'.
Proof.
  unfold Script.extract_all_tables.
  set (I := λ st : Script.extractor * heap,
              Forall2 (stored pages) (Script.extracted_tables st.1)
                (Script.table_metadata st.1)
              ∧ only_padded h st.2).
  destruct (for_in_invariant I
              (λ it : nat * list table,
                 (1 ≤ it.1)%nat ∧ pages !! (it.1 - 1)%nat = Some it.2)
              Script.extract_page (enumerate 1 pages)
              (Script.mkExtractor [] [], h)) as ([self h'] & E & H1 & H2).
  - split; [constructor | apply only_padded_refl].
  - apply Forall_enumerate.
  - intros st [page_num tables] Hst [Hp Htables]. simpl in Hp, Htables.
    unfold Script.extract_page.
    apply (for_in_invariant I
             (λ it : nat * table, tables !! (it.1 - 0)%nat = Some it.2));
      [done | |].
    { eapply Forall_impl; [apply Forall_enumerate|]. by intros ? [_ ?]. }
    clear st Hst. intros [st hh] [table_idx t] [Hst Hh] Ht. simpl in Ht, Hst, Hh.
    rewrite Nat.sub_0_r in Ht.
    unfold Script.extract_table.
    pose proof (convert_table_to_dataframe_only_padded t hh) as Hpad.
    destruct (Script.convert_table_to_dataframe t hh) as [[df|] hh'] eqn:E;
      simpl in Hpad.
    + destruct (empty df) eqn:Hempty.
      * eexists. split; [done|]. split; [done|]. by eapply only_padded_trans.
      * eexists. split; [done|]. split; [|by eapply only_padded_trans]. simpl.
        apply Forall2_app; [done|]. constructor; [|constructor].
        unfold stored. simpl. unfold frame_map. simpl.
        rewrite length_map. repeat split; try done.
        -- unfold empty in *. simpl.
           rewrite orb_false_iff in Hempty. destruct Hempty as [Hv Hc].
           rewrite Hc, orb_false_r. apply bool_decide_eq_false.
           apply bool_decide_eq_false in Hv. by destruct (values df).
        -- by exists tables, t.
    + eexists. split; [done|]. split; [done|]. by eapply only_padded_trans.
  - by exists self, h'.
Qed.

(** The run over the whole document raises nothing. It stores as many
    entries of metadata as tables, in the same order; each entry holds the
    numbers of rows and columns of its table, the number of a page of the
    document and the position of a table on that page; no stored table is
    empty. The rows in memory keep their cells and are at most extended
    with empty strings. *)
Theorem extract_all_tables_invariant (pages : list (list table)) (h : heap) :
  ∃ (self : Script.extractor) (h' : heap),
    Script.extract_all_tables pages h = inr (self, h')
    ∧ Forall2 (stored pages) (Script.extracted_tables self) (Script.table_metadata self)
    ∧ only_padded h h'.
Proof. apply extract_all_tables_spec. Qed.

(** ** Cleaning and numeric conversion of a frame *)

Lemma select_sublist {A} (mask : list bool) (l : list A) : select mask l `sublist_of` l.
Proof.
  revert l. induction mask as [|b mask IH]; intros [|x l]; simpl;
    try apply sublist_nil_l.
  destruct b; [by apply sublist_skip | by apply sublist_cons].
Qed.

(** A cell of a cleaned frame is absent, or a text that is not empty and
    has no white space at its ends; the labels of the cleaned frame are
    labels of the frame, in their order, and its rows come from rows of
    the frame, in their order. *)
Theorem cleaned_cells_are_stripped (df : DataFrame cell) :
  Forall (Forall (λ c : cell, ∀ t, c = Some t → t ≠ [] ∧ strip t = t))
    (values (Script.clean_dataframe df))
  ∧ columns (Script.clean_dataframe df) `sublist_of` columns df
  ∧ (length (values (Script.clean_dataframe df)) ≤ length (values df))%nat.
Proof.
  unfold Script.clean_dataframe, frame_map, dropna_columns, dropna_rows.
  cbn [values columns]. split; [|split].
  - rewrite !map_map, map_fmap. apply Forall_fmap, Forall_forall. intros row _.
    simpl. rewrite !map_fmap, <- list_fmap_compose. apply Forall_fmap, Forall_forall.
    intros [t|] _ u; simpl; [|done].
    destruct (strip t) eqn:E; [done|]. intros [= <-]. split; [done|].
    rewrite <- E. apply strip_idemp.
  - apply select_sublist.
  - rewrite !length_map. apply filter_length_le.
Qed.

(** Canonicalising twice is canonicalising once. *)
Lemma convert_to_numeric_twice (x : pyval) :
  Script.convert_to_numeric (Script.convert_to_numeric x) = Script.convert_to_numeric x.
Proof.
  destruct x as [| z | f | s | cells]; try done.
  destruct (convert_to_numeric_str_cases s) as [H | [[f H] | H]];
    rewrite H; try done.
  by rewrite convert_to_numeric_strip.
Qed.


Lemma imap_imap {A B C} (f : nat → B → C) (g : nat → A → B) (l : list A) :
  imap f (imap g l) = imap (λ j x, f j (g j x)) l.
Proof.
  apply list_eq. intros j. rewrite !list_lookup_imap.
  by destruct (l !! j).
Qed.

(** *** The values of a column *)

Lemma column_values_imap (G : nat → pyval → pyval) (j : nat) (rows : list (list pyval)) :
  Script.column_values j (map (imap G) rows) = map (G j) (Script.column_values j rows).
Proof.
  unfold Script.column_values. induction rows as [|row rows IH]; [done|].
  cbn [map omap list_omap]. rewrite list_lookup_imap.
  destruct (row !! j); cbn [fmap option_fmap option_map map]; by rewrite IH.
Qed.

Lemma elem_of_column_values (j : nat) (rows : list (list pyval)) (row : list pyval)
    (x : pyval) :
  row ∈ rows → row !! j = Some x → x ∈ Script.column_values j rows.
Proof. intros. apply list_elem_of_omap. by exists row. Qed.

Lemma convert_cell_same (rows : list (list pyval)) (j : nat) (G : nat → pyval → pyval)
    (x : pyval) :
  (∀ v, G j v = v) →
  Script.convert_cell (map (imap G) rows) j x = Script.convert_cell rows j x.
Proof.
  intros HG. unfold Script.convert_cell. rewrite column_values_imap.
  by rewrite (map_ext (G j) id), map_id.
Qed.

(** Once pandas has made floats of a column, every value of it is a
    float. *)
Lemma float_column_as_float (result : list pyval) (v : pyval) :
  Script.float_column result = true → v ∈ result →
  ∃ f, Script.as_float v = VFloat f.
Proof.
  intros [H _]%andb_true_iff Hv. rewrite forallb_forall in H.
  apply list_elem_of_In, H in Hv. destruct v; try done; simpl; eauto.
Qed.

(** The conversion of a column that has been converted changes nothing. *)
Lemma convert_cell_again (rows : list (list pyval)) (j : nat) (G : nat → pyval → pyval)
    (x : pyval) :
  (∀ v, G j v = Script.convert_cell rows j v) →
  x ∈ Script.column_values j rows →
  Script.convert_cell (map (imap G) rows) j (Script.convert_cell rows j x)
  = Script.convert_cell rows j x.
Proof.
  intros HG Hx. unfold Script.convert_cell at 1. rewrite column_values_imap.
  rewrite (map_ext (G j) _ HG). unfold Script.convert_cell.
  set (c := Script.column_values j rows) in *.
  destruct (Script.float_column (map Script.convert_to_numeric c)) eqn:Hfc.
  - assert (Hfl : ∀ v, v ∈ c →
              ∃ f, Script.as_float (Script.convert_to_numeric v) = VFloat f).
    { intros v Hv. apply (float_column_as_float _ _ Hfc).
      rewrite map_fmap. by apply list_elem_of_fmap_2. }
    assert (Hc : map Script.convert_to_numeric
                   (map (λ v, Script.as_float (Script.convert_to_numeric v)) c)
                 = map (λ v, Script.as_float (Script.convert_to_numeric v)) c).
    { rewrite map_map. apply map_ext_in. intros v Hv%list_elem_of_In.
      by destruct (Hfl v Hv) as [f ->]. }
    rewrite Hc.
    assert (Hfc' : Script.float_column
                     (map (λ v, Script.as_float (Script.convert_to_numeric v)) c) = true).
    { unfold Script.float_column. apply andb_true_iff. split.
      - apply forallb_forall. intros v' Hv'%in_map_iff.
        destruct Hv' as (v & <- & Hv%list_elem_of_In). by destruct (Hfl v Hv) as [f ->].
      - apply orb_true_iff. left. apply existsb_exists.
        exists (Script.as_float (Script.convert_to_numeric x)). split.
        + apply in_map_iff. exists x. by rewrite <- list_elem_of_In.
        + by destruct (Hfl x Hx) as [f ->]. }
    rewrite Hfc'. by destruct (Hfl x Hx) as [f ->].
  - rewrite map_map, (map_ext _ _ convert_to_numeric_twice), Hfc.
    apply convert_to_numeric_twice.
Qed.

(** *** The loop over the labels *)

Lemma lookup_in_labels (l : option cell) (col : cell) (labels : list cell) :
  bool_decide (l ∈ Some <$> (col :: labels))
  = bool_decide (l = Some col) || bool_decide (l ∈ Some <$> labels).
Proof.
  rewrite fmap_cons. apply eq_true_iff_eq.
  rewrite orb_true_iff, !bool_decide_eq_true, elem_of_cons. done.
Qed.

(** The loop over the labels, for any list of labels: a column is
    converted when its label occurs once in the frame and is in the
    list. *)
Lemma convert_columns_cells (labels : list cell) (df : DataFrame pyval) :
  foldl (λ df col, Script.convert_column col df) df labels
  = mkDataFrame (columns df)
      (map (imap (λ j x, if once (columns df) j
                            && bool_decide (columns df !! j ∈ Some <$> labels)
                         then Script.convert_cell (values df) j x else x))
         (values df)).
Proof.
  revert df. induction labels as [|col labels IH]; intros [cols rows];
    cbn [foldl columns values].
  - f_equal. rewrite <- (map_id rows) at 1. apply map_ext. intros row.
    apply list_eq. intros j. rewrite list_lookup_imap.
    destruct (row !! j); [|done]. cbn [fmap option_fmap option_map list_fmap].
    rewrite bool_decide_false by apply not_elem_of_nil.
    by rewrite andb_false_r.
  - rewrite IH. unfold Script.convert_column. cbn [columns values].
    case_bool_decide as Hcol; cbn [columns values]; f_equal.
    + rewrite map_map. apply map_ext_in. intros row Hrow%list_elem_of_In.
      rewrite imap_imap. apply imap_ext. intros j x Hx. cbn beta.
      rewrite lookup_in_labels.
      destruct (bool_decide (cols !! j = Some col)) eqn:Hj.
      * apply bool_decide_eq_true in Hj.
        assert (Honce : once cols j = true).
        { unfold once. rewrite Hj. by apply bool_decide_eq_true. }
        rewrite Honce. cbn [andb orb].
        destruct (bool_decide (cols !! j ∈ Some <$> labels)); [|done].
        apply convert_cell_again.
        -- intros v. by rewrite bool_decide_true.
        -- by eapply elem_of_column_values.
      * cbn [orb]. destruct (once cols j && _); [|done].
        apply convert_cell_same. intros v. by rewrite Hj.
    + apply map_ext. intros row. apply imap_ext. intros j x _. cbn beta.
      rewrite lookup_in_labels.
      destruct (bool_decide (cols !! j = Some col)) eqn:Hj; [|done].
      apply bool_decide_eq_true in Hj. unfold once. rewrite Hj.
      by rewrite (bool_decide_false (length _ = 1%nat)).
Qed.

(** [convert_numeric_columns] converts the columns whose label occurs
    once, and leaves the others as they are. *)
Lemma convert_numeric_frame_cells (df : DataFrame pyval) :
  Script.convert_numeric_frame df
  = mkDataFrame (columns df)
      (map (imap (λ j x, if once (columns df) j
                         then Script.convert_cell (values df) j x else x))
         (values df)).
Proof.
  unfold Script.convert_numeric_frame. rewrite convert_columns_cells. f_equal.
  apply map_ext. intros row. apply imap_ext. intros j x _. simpl.
  unfold once. destruct (columns df !! j) as [c|] eqn:Ej; simpl; [|done].
  rewrite (bool_decide_true (_ ∈ _)); [by rewrite andb_true_r|].
  apply list_elem_of_fmap. exists c. split; [done|]. by eapply list_elem_of_lookup_2.
Qed.

Lemma once_NoDup (cols : list cell) (j : nat) :
  NoDup cols → (j < length cols)%nat → once cols j = true.
Proof.
  intros Hnd Hj. unfold once.
  destruct (lookup_lt_is_Some_2 cols j Hj) as [c Hc].
  rewrite Hc. apply bool_decide_eq_true.
  clear Hj. revert j Hc.
  induction Hnd as [|c0 cols Hnotin Hnd IH]; intros j Hc; [done|].
  cbn [List.filter]. case_bool_decide as E.
  + subst c0. cbn [length]. f_equal.
    assert (Hnone : ∀ l : list cell, c ∉ l →
              List.filter (λ c1, bool_decide (c1 = c)) l = []).
    { induction l as [|y l IHl]; [done|]. intros Hy. cbn [List.filter].
      rewrite bool_decide_false by (intros ->; apply Hy, list_elem_of_here).
      apply IHl. intros ?. by apply Hy, list_elem_of_further. }
    by rewrite Hnone.
  + destruct j as [|j]; [simpl in Hc; congruence|]. by apply (IH j).
Qed.

(** A column of canonicalised cells is one of floats exactly when it
    holds a number and no text. *)
Lemma float_column_cells (rows : list (list cell)) (j : nat) :
  Script.float_column
    (map Script.convert_to_numeric (Script.column_values j (map (map of_cell) rows)))
  = true
  ↔ number_column rows j.
Proof.
  assert (Hcol : ∀ v, v ∈ map Script.convert_to_numeric
                        (Script.column_values j (map (map of_cell) rows))
                 ↔ ∃ row c, row ∈ rows ∧ row !! j = Some c
                            ∧ v = Script.convert_to_numeric (of_cell c)).
  { intros v. rewrite map_fmap, list_elem_of_fmap. unfold Script.column_values.
    setoid_rewrite list_elem_of_omap. rewrite map_fmap.
    setoid_rewrite list_elem_of_fmap. split.
    - intros (x & -> & row' & (row & -> & Hrow) & Hx).
      rewrite map_fmap, list_lookup_fmap in Hx.
      destruct (row !! j) as [c|] eqn:Ec; [|done]. injection Hx as <-.
      by exists row, c.
    - intros (row & c & Hrow & Hc & ->). exists (of_cell c). split; [done|].
      exists (map of_cell row). split; [by exists row|].
      by rewrite map_fmap, list_lookup_fmap, Hc. }
  assert (Hcases : ∀ c : cell,
            Script.convert_to_numeric (of_cell c) = VNone
            ∨ (∃ f, Script.convert_to_numeric (of_cell c) = VFloat f)
            ∨ ∃ t, Script.convert_to_numeric (of_cell c) = VStr t).
  { intros [s|]; [|by left]. simpl.
    destruct (convert_to_numeric_str_cases s) as [H | [H | H]]; eauto. }
  unfold Script.float_column, number_column.
  rewrite andb_true_iff, forallb_forall, orb_true_iff, andb_true_iff, !existsb_exists.
  split.
  - intros [Hall [Hfl | [_ Hint]]].
    + destruct Hfl as (v & Hv%list_elem_of_In%Hcol & Hf).
      destruct Hv as (row & c & Hrow & Hc & ->). split.
      * destruct (Script.convert_to_numeric (of_cell c)) as [| |f| |] eqn:E; try done.
        by exists row, c, f.
      * intros row' c' t Hrow' Hc' E.
        assert (Hin : VStr t ∈ map Script.convert_to_numeric
                        (Script.column_values j (map (map of_cell) rows))).
        { apply Hcol. exists row', c'. by rewrite E. }
        by apply list_elem_of_In, Hall in Hin.
    + destruct Hint as (v & Hv%list_elem_of_In%Hcol & Hi).
      destruct Hv as (row & c & _ & _ & ->).
      by destruct (Hcases c) as [E | [[f E] | [t E]]]; rewrite E in Hi.
  - intros [(row & c & f & Hrow & Hc & E) Hno]. split.
    + intros v (row' & c' & Hrow' & Hc' & ->)%list_elem_of_In%Hcol.
      destruct (Hcases c') as [E' | [[f' E'] | [t E']]]; rewrite E'; try done.
      by destruct (Hno row' c' t Hrow' Hc').
    + left. exists (VFloat f). split; [|done].
      apply list_elem_of_In, Hcol. exists row, c. by rewrite E.
Qed.

(** In a frame of cells whose labels are pairwise distinct, and whose
    rows are no wider than the header, [convert_numeric_columns] puts
    the canonical value in the place of every cell; in a column that holds
    a number and no text, pandas then stores NaN for the missing
    value. *)
Theorem convert_numeric_frame_all_cells (df : DataFrame cell) :
  NoDup (columns df) →
  Forall (λ row, (length row ≤ length (columns df))%nat) (values df) →
  ∀ (i j : nat) (row : list cell) (c : cell),
    values df !! i = Some row → row !! j = Some c →
    ∃ row' v',
      values (Script.convert_numeric_frame (frame_map of_cell df)) !! i = Some row'
      ∧ row' !! j = Some v'
      ∧ (number_column (values df) j →
         v' = missing_as_nan (Script.convert_to_numeric (of_cell c)))
      ∧ (¬ number_column (values df) j →
         v' = Script.convert_to_numeric (of_cell c)).
Proof.
  intros Hnd Hrows i j row c Hi Hj.
  rewrite convert_numeric_frame_cells. unfold frame_map. cbn [values columns].
  assert (Hlt : (j < length (columns df))%nat).
  { apply lookup_lt_Some in Hj.
    eapply Forall_lookup_1 in Hrows; [|exact Hi]. simpl in Hrows. lia. }
  eexists _, _. split; [|split].
  - rewrite !map_fmap, !list_lookup_fmap, Hi. reflexivity.
  - rewrite list_lookup_imap, map_fmap, list_lookup_fmap, Hj. reflexivity.
  - rewrite (once_NoDup _ _ Hnd Hlt). unfold Script.convert_cell.
    pose proof (float_column_cells (values df) j) as Hfc.
    destruct (Script.float_column _) eqn:E.
    + split; [|intros Hn; destruct Hn; exact (proj1 Hfc eq_refl)].
      intros _. destruct c as [s|]; [|done]. cbn [of_cell].
      by destruct (convert_to_numeric_str_cases s) as [H | [[f H] | H]]; rewrite H.
    + split; [|done]. intros Hn. discriminate (proj2 Hfc Hn).
Qed.

Lemma convert_numeric_frame_all_cells_witness :
  ∃ row' v',
    values (Script.convert_numeric_frame
              (frame_map of_cell
                 (mkDataFrame [Some (txt "Item"); Some (txt "2024")]
                    [[Some (txt "Share capital"); Some (txt "(100)")];
                     [Some (txt "Total"); None]]))) !! 1%nat = Some row'
    ∧ row' !! 1%nat = Some v'
    ∧ (number_column [[Some (txt "Share capital"); Some (txt "(100)")];
                      [Some (txt "Total"); None]] 1 →
       v' = missing_as_nan (Script.convert_to_numeric (of_cell None)))
    ∧ (¬ number_column [[Some (txt "Share capital"); Some (txt "(100)")];
                        [Some (txt "Total"); None]] 1 →
       v' = Script.convert_to_numeric (of_cell None)).
Proof.
  apply (convert_numeric_frame_all_cells
           (mkDataFrame [Some (txt "Item"); Some (txt "2024")]
              [[Some (txt "Share capital"); Some (txt "(100)")];
               [Some (txt "Total"); None]])
           ltac:(apply (bool_decide_unpack _); vm_compute; exact I)
           ltac:(repeat constructor)
           1%nat 1%nat [Some (txt "Total"); None] None);
    reflexivity.
Defined.

(** The missing cell of a column of numbers is stored as NaN, and the
    cells of a column with a text as they are canonicalised. *)
Example missing_cell_of_a_number_column :
  values (Script.convert_numeric_frame
            (frame_map of_cell
               (mkDataFrame [Some (txt "Item"); Some (txt "2024")]
                  [[Some (txt "Share capital"); Some (txt "(100)")];
                   [None; None]])))
  = [[VStr (txt "Share capital"); VFloat (float_of_Z (-100))];
     [VNone; VFloat S754_nan]].
Proof. by vm_compute. Qed.

(** A second run of [convert_numeric_columns] changes no frame, whatever
    its labels and row widths. *)
Theorem convert_numeric_frame_idempotent (df : DataFrame pyval) :
  Script.convert_numeric_frame (Script.convert_numeric_frame df)
  = Script.convert_numeric_frame df.
Proof.
  rewrite !convert_numeric_frame_cells. cbn [columns values]. f_equal.
  rewrite map_map. apply map_ext_in. intros row Hrow%list_elem_of_In.
  rewrite imap_imap. apply imap_ext. intros j x Hx. cbn beta.
  destruct (once (columns df) j) eqn:Honce; [|done].
  apply convert_cell_again.
  - intros v. by rewrite Honce.
  - by eapply elem_of_column_values.
Qed.

(** ** The whole run *)

Section RunFacts.

Variable today : text.
Variable repr_obj : pyval → text.

Lemma row_count_stored (pages : list (list table)) (dfs : list (DataFrame pyval))
    (ms : list Script.metadata) :
  Forall2 (stored pages) dfs ms →
  row_count (zip (Script.convert_numeric_columns dfs) ms)
  = sum_list (map Script.rows ms).
Proof.
  unfold row_count. induction 1 as [|df m dfs ms Hs _ IH]; [done|].
  simpl. rewrite IH. f_equal. destruct Hs as (-> & _).
  destruct (convert_numeric_frame_shape df) as [_ H].
  apply (f_equal length) in H. by rewrite !length_map in H.
Qed.

(** The run over a whole document, from the tables of its pages to the
    frame of the schema, raises nothing. The frame has the columns of the
    schema and one row for every row counted in the metadata of the
    tables, with the keys 1, 2, 3, ... in its first column; the rows in
    memory are at most extended with empty strings. *)
Theorem whole_pdf_run (pages : list (list table)) (h : heap) :
  ∃ (self : Script.extractor) (h' : heap) (df : DataFrame pyval),
    Script.extract_all_tables pages h = inr (self, h')
    ∧ Script.main_option_2_whole_pdf today repr_obj pages h = inr (df, h')
    ∧ columns df = map (λ c, Some (txt c)) Script.standard_columns
    ∧ length (values df) = sum_list (map Script.rows (Script.table_metadata self))
    ∧ Forall (λ row, length row = length Script.standard_columns) (values df)
    ∧ (∀ (i : nat) (row : list pyval),
         values df !! i = Some row → row !! 0%nat = Some (VInt (Z.of_nat i + 1)))
    ∧ only_padded h h'.
Proof.
  destruct (extract_all_tables_spec pages h) as (self & h' & E & Hst & Hpad).
  unfold Script.main_option_2_whole_pdf. rewrite E.
  cbn [mbind mret result_bind result_ret].
  unfold Script.transform_to_standard_schema, Script.transformed_data.
  cbn [Script.extracted_tables Script.table_metadata].
  destruct (transform_tables_spec today repr_obj
              (zip (Script.convert_numeric_columns (Script.extracted_tables self))
                 (Script.table_metadata self)) 0 [] 1)
    as (data & -> & Hlen & Hkeys).
  cbn [mbind mret result_bind result_ret fst app].
  exists self, h', (Script.frame_of_dicts data).
  split; [done|]. split; [done|]. split; [done|].
  unfold Script.frame_of_dicts. cbn [values].
  split; [|split; [|split; [|done]]].
  - rewrite length_map, Hlen. by eapply row_count_stored.
  - rewrite map_fmap. apply Forall_fmap, Forall_forall. intros rd _.
    cbv [compose]. by rewrite length_map.
  - intros i row. rewrite map_fmap, list_lookup_fmap.
    destruct (data !! i) as [rd|] eqn:Ed; [|done]. intros [= <-].
    simpl. rewrite (Hkeys i rd Ed). simpl. do 2 f_equal. lia.
Qed.

End RunFacts.

(** ** Emphasis in the two writers of page 8 *)

(** A row that pymupdf_extractor.py writes as a total, page8_extractor.py
    writes as a total too: the keywords of the first all hold the
    keyword balance of the second. *)
Theorem pymupdf_totals_are_page8_totals (c : text) (rest : list text) :
  PyMuPDF.is_total_with PyMuPDF.keywords (c :: rest) = true →
  Page8.is_total_or_subtotal c = true.
Proof.
  unfold PyMuPDF.is_total_with. rewrite existsb_contains.
  intros (k & Hk & pre & post & E).
  assert (Hk' : ∃ post', k = txt "balance" ++ post').
  { apply elem_of_cons in Hk as [->|Hk]; [by exists (txt " as at")|].
    apply list_elem_of_singleton in Hk as ->. by exists (txt " at"). }
  destruct Hk' as [post' ->].
  unfold Page8.is_total_or_subtotal. case_bool_decide as Hc.
  { subst c. by destruct pre. }
  apply existsb_contains. exists (txt "balance"). split; [apply list_elem_of_here|].
  exists pre, (post' ++ post). by rewrite E, <- !app_assoc.
Qed.

Lemma pymupdf_totals_are_page8_totals_witness :
  Page8.is_total_or_subtotal (txt "Balance at 1 January 2024") = true.
Proof.
  apply (pymupdf_totals_are_page8_totals (txt "Balance at 1 January 2024") [txt "1"]).
  vm_compute. reflexivity.
Defined.

(** ** The earlier canonicaliser *)

(** [_convert_to_numeric] of standard_schema_extractor.py gives a number
    through its rule for parentheses only: a value whose text is not in
    parentheses comes back as [None] or as text, a number that is passed
    in included. *)
Theorem earlier_canonicaliser_gives_text (repr_obj : pyval → text) (v : pyval) :
  (∀ cells, v ≠ VSeries cells) →
  startswith c_lparen (strip (py_str repr_obj v))
  && endswith c_rparen (strip (py_str repr_obj v)) = false →
  StandardSchema.convert_to_numeric repr_obj v = VNone
  ∨ ∃ t, StandardSchema.convert_to_numeric repr_obj v = VStr t.
Proof.
  intros Hser Hp. unfold StandardSchema.convert_to_numeric.
  destruct v as [| z | f | s | cells]; [by left| | | |by destruct (Hser cells)];
    rewrite Hp; (destruct (_ || _); [by left|]); right;
    destruct (py_float _); simpl; eauto.
Qed.

Lemma earlier_canonicaliser_gives_text_witness :
  StandardSchema.convert_to_numeric (λ _, []) (VInt 5) = VNone
  ∨ ∃ t, StandardSchema.convert_to_numeric (λ _, []) (VInt 5) = VStr t.
Proof.
  apply (earlier_canonicaliser_gives_text (λ _, []) (VInt 5)).
  - intros cells. discriminate.
  - vm_compute. reflexivity.
Defined.
